(** * igl::vulkan::Texture (src/igl/vulkan/Texture.cpp)

    A shallow embedding of [Texture::create], [Texture::upload],
    [Texture::uploadCube], [Texture::getVkImageViewForFramebuffer],
    [Texture::generateMipmap] and the accessors of [Texture].
    The Vulkan device and the staging device are external collaborators:
    every call the texture makes into them is recorded as an [Event] in a
    device log, and the outcomes the device reports are read from a
    [VulkanContext] record.  Debug assertions ([IGL_ASSERT_MSG]) are no-ops,
    as in a release build; [IGL_VERIFY(c)] evaluates to [c]. *)

From Stdlib Require Import List Arith NArith Bool Lia.
Import ListNotations.
Open Scope N_scope.

(** ** Result codes (igl::Result::Code) *)

Inductive Code :=
| Ok | ArgumentInvalid | ArgumentOutOfRange | InvalidOperation
| Unsupported | Unimplemented | RuntimeError
| RangeOutOfBounds.  (** only produced by [validateRange], see below *)

Scheme Equality for Code.

Definition isOk (c : Code) : bool := Code_beq c Ok.

Definition IGL_VERIFY (b : bool) : bool := b.

(** ** Texture types, formats, usage and storage *)

Inductive TextureType := TT_Invalid | TwoD | TwoDArray | ThreeD | Cube | ExternalImage.
Scheme Equality for TextureType.

Inductive TextureFormat :=
| Format_Invalid | R_UNorm8 | RG_UNorm8 | RGBA_UNorm8 | BGRA_UNorm8 | RGBA_F32
| Z_UNorm16 | Z_UNorm24 | Z_UNorm32 | S8_UInt_Z24_UNorm
| ETC2_RGB8 | BC7_RGBA.

(** The device formats are identified with the abstract ones; the
    conversion functions of Common.h are then identities. *)
Definition VkFormat := TextureFormat.
Definition VK_FORMAT_UNDEFINED : VkFormat := Format_Invalid.
Definition textureFormatToVkFormat (f : TextureFormat) : VkFormat := f.
Definition vkFormatToTextureFormat (f : VkFormat) : TextureFormat := f.

Definition isDepthOrStencilFormat (f : TextureFormat) : bool :=
  match f with
  | Z_UNorm16 | Z_UNorm24 | Z_UNorm32 | S8_UInt_Z24_UNorm => true
  | _ => false
  end.

Definition isCompressedTextureFormat (f : TextureFormat) : bool :=
  match f with ETC2_RGB8 | BC7_RGBA => true | _ => false end.

Definition toBytesPerBlock (f : TextureFormat) : N :=
  match f with ETC2_RGB8 => 8 | BC7_RGBA => 16 | _ => 0 end.

Definition getBytesPerPixel (f : VkFormat) : N :=
  match f with
  | R_UNorm8 => 1 | RG_UNorm8 => 2 | RGBA_UNorm8 => 4 | BGRA_UNorm8 => 4
  | RGBA_F32 => 16 | Z_UNorm16 => 2 | Z_UNorm24 => 4 | Z_UNorm32 => 4
  | S8_UInt_Z24_UNorm => 4
  | _ => 0
  end.

(** Modelled from the spec: [getTextureBytesPerSlice] (igl, not in the
    sources) is the byte size of one slice of the given extent at the given
    mip level, each dimension halved per level and clamped to 1; compressed
    formats count 4x4 blocks. *)
Definition mipDim (d level : N) : N := N.max 1 (N.shiftr d level).

Definition getTextureBytesPerSlice (w h d : N) (f : TextureFormat) (level : N) : N :=
  let lw := mipDim w level in
  let lh := mipDim h level in
  let ld := mipDim d level in
  if isCompressedTextureFormat f
  then ((lw + 3) / 4) * ((lh + 3) / 4) * ld * toBytesPerBlock f
  else lw * lh * ld * getBytesPerPixel f.

(** TextureDesc::TextureUsageBits *)
Definition Sampled : N := 1.
Definition Storage : N := 2.
Definition Attachment : N := 4.

Inductive ResourceStorage := Private | Shared | Managed | Memoryless.

(** Vulkan constants *)
Definition VK_IMAGE_USAGE_TRANSFER_SRC_BIT : N := 1.
Definition VK_IMAGE_USAGE_TRANSFER_DST_BIT : N := 2.
Definition VK_IMAGE_USAGE_SAMPLED_BIT : N := 4.
Definition VK_IMAGE_USAGE_STORAGE_BIT : N := 8.
Definition VK_IMAGE_USAGE_COLOR_ATTACHMENT_BIT : N := 16.
Definition VK_IMAGE_USAGE_DEPTH_STENCIL_ATTACHMENT_BIT : N := 32.
Definition VK_IMAGE_ASPECT_COLOR_BIT : N := 1.
Definition VK_IMAGE_ASPECT_DEPTH_BIT : N := 2.
Definition VK_IMAGE_CREATE_CUBE_COMPATIBLE_BIT : N := 16.
Definition VK_SAMPLE_COUNT_1_BIT : N := 1.
Definition VK_REMAINING_MIP_LEVELS : N := 4294967295.

Inductive VkImageType := VK_IMAGE_TYPE_2D | VK_IMAGE_TYPE_3D.
Inductive VkImageViewType := VK_IMAGE_VIEW_TYPE_2D | VK_IMAGE_VIEW_TYPE_3D | VK_IMAGE_VIEW_TYPE_CUBE.

Definition resourceStorageToVkMemoryPropertyFlags (s : ResourceStorage) : N :=
  match s with
  | Private => 1      (* DEVICE_LOCAL *)
  | Shared => 6       (* HOST_VISIBLE | HOST_COHERENT *)
  | Managed => 7      (* DEVICE_LOCAL | HOST_VISIBLE | HOST_COHERENT *)
  | Memoryless => 17  (* DEVICE_LOCAL | LAZILY_ALLOCATED *)
  end.

(** Modelled from the spec: [getVulkanSampleCountFlags] (not in the
    sources) allocates the requested sample count, at least 1. *)
Definition getVulkanSampleCountFlags (numSamples : N) : N :=
  if numSamples <=? 1 then VK_SAMPLE_COUNT_1_BIT else numSamples.

(** Modelled from the spec: [TextureDesc::calcNumMipLevels] (not in the
    sources) is ceil(log2(max(width, height))) + 1. *)
Definition calcNumMipLevels (width height : N) : N :=
  N.log2_up (N.max width height) + 1.

(** [(uint32_t)v] and [(int32_t)v], as a 32-bit pattern *)
Definition u32 (v : N) : N := v mod 2 ^ 32.
Definition u32_sub (a b : N) : N := (u32 a + 2 ^ 32 - u32 b) mod 2 ^ 32.

(** ** Descriptors *)

Record TextureDesc := {
  type : TextureType;
  format : TextureFormat;
  width : N; height : N; depth : N;
  numLayers : N;
  numSamples : N;
  numMipLevels : N;
  usage : N;
  storage : ResourceStorage;
  (* debugName only feeds the debug labels of the device objects *)
}.

Definition set_numMipLevels (d : TextureDesc) (n : N) : TextureDesc :=
  {| type := type d; format := format d; width := width d; height := height d;
     depth := depth d; numLayers := numLayers d; numSamples := numSamples d;
     numMipLevels := n; usage := usage d; storage := storage d |}.

Definition set_usage (d : TextureDesc) (u : N) : TextureDesc :=
  {| type := type d; format := format d; width := width d; height := height d;
     depth := depth d; numLayers := numLayers d; numSamples := numSamples d;
     numMipLevels := numMipLevels d; usage := u; storage := storage d |}.

Module TextureRangeDesc.
Record t := {
  x : N; y : N; z : N;
  width : N; height : N; depth : N;
  layer : N; numLayers : N;
  mipLevel : N; numMipLevels : N;
}.
End TextureRangeDesc.

Inductive TextureCubeFace := PosX | NegX | PosY | NegY | PosZ | NegZ.

(** [(uint32_t)face]: the enumerators are numbered from 0 in order. *)
Definition cubeFaceToU32 (f : TextureCubeFace) : N :=
  match f with PosX => 0 | NegX => 1 | PosY => 2 | NegY => 3 | PosZ => 4 | NegZ => 5 end.

(** ** Device objects *)

Record VulkanImage := {
  img_handle : N;
  img_type : VkImageType;
  img_extent : N * N * N;
  img_format : VkFormat;
  img_mipLevels : N;
  img_arrayLayers : N;
  img_usage : N;
  img_memFlags : N;
  img_createFlags : N;
  img_samples : N;
}.

Record VulkanImageView := {
  view_handle : N;
  view_type : VkImageViewType;
  view_format : VkFormat;
  view_aspect : N;
  view_baseMipLevel : N;
  view_numMipLevels : N;
  view_baseLayer : N;
  view_numLayers : N;
}.

(** [VulkanTexture]: an image together with its primary view. *)
Record VulkanTexture := {
  vt_image : VulkanImage;
  vt_view : VulkanImageView;
}.

(** Modelled from the spec: [VulkanImage::getImageAspectFlags] (not in the
    sources).  Section 4.5 gives attachment views the aspect of the primary
    view, which [create] derives from the image's usage flags. *)
Definition getImageAspectFlags (img : VulkanImage) : N :=
  if N.land (img_usage img) VK_IMAGE_USAGE_DEPTH_STENCIL_ATTACHMENT_BIT =? 0
  then VK_IMAGE_ASPECT_COLOR_BIT else VK_IMAGE_ASPECT_DEPTH_BIT.

(** The pixel source handed to the staging device: the caller's pointer
    (null, or an offset into the caller's buffer), or the contents of the
    temporary [linearData] buffer at the time of the call (the staging
    device copies the bytes into its own buffer during the call). *)
Inductive UploadSrc :=
| SrcNull
| SrcCaller (off : N)
| SrcLinear (buf : list Byte.byte).

Inductive Event :=
| EvCreateImage (img : VulkanImage)
| EvCreateImageView (image : N) (view : VulkanImageView)
| EvImageData2D (image : N) (region : N * N * N * N)
    (mipLevel numMipLevels layer : N) (fmt : VkFormat) (src : UploadSrc)
| EvImageData3D (image : N) (offset : N * N * N) (extent : N * N * N)
    (fmt : VkFormat) (src : UploadSrc).

(** What the device reports: the format substituted for depth formats,
    the outcome of [createImage] (its result and whether an image object
    came back) and whether [VulkanImage::createImageView] returns a view
    object for the primary view [create] asks for. *)
Record VulkanContext := {
  getClosestDepthStencilFormat : TextureFormat -> VkFormat;
  ctx_createImage : VulkanImage -> Code * bool;
  ctx_createImageView : VulkanImageView -> bool;
}.

Record Device := {
  dev_next : N;            (* next fresh handle *)
  dev_log : list Event;    (* calls made so far, oldest first *)
}.

(** The C++ object: [desc_], [texture_] and the mutable cache
    [imageViewForFramebuffer_]. *)
Record Texture := {
  desc_ : TextureDesc;
  texture_ : option VulkanTexture;
  imageViewForFramebuffer_ : list (option VulkanImageView);
}.

Record St := { tex : Texture; dev : Device }.

(** ** An error/state monad for early returns *)

(** [Return r] is a [return r;] out of the middle of a method, [UB] a
    dereference of a null pointer. *)
Inductive Exit := Return (r : Code) | UB.

Definition M (A : Type) : Type := St -> (Exit + A) * St.

Definition ret {A} (a : A) : M A := fun s => (inr a, s).
Definition bind {A B} (m : M A) (k : A -> M B) : M B :=
  fun s => match m s with
           | (inl e, s') => (inl e, s')
           | (inr a, s') => k a s'
           end.
Definition early {A} (r : Code) : M A := fun s => (inl (Return r), s).
Definition ub {A} : M A := fun s => (inl UB, s).

Notation "x <- m ;; k" := (bind m (fun x => k))
  (at level 61, m at next level, right associativity).
Notation "m ;; k" := (bind m (fun _ => k)) (at level 61, right associativity).

Definition get_tex : M Texture := fun s => (inr (tex s), s).
Definition put_tex (t : Texture) : M unit :=
  fun s => (inr tt, {| tex := t; dev := dev s |}).
Definition emit (e : Event) : M unit :=
  fun s => (inr tt, {| tex := tex s;
                       dev := {| dev_next := dev_next (dev s);
                                 dev_log := dev_log (dev s) ++ [e] |} |}).
Definition fresh : M N :=
  fun s => (inr (dev_next (dev s)),
            {| tex := tex s;
               dev := {| dev_next := dev_next (dev s) + 1;
                         dev_log := dev_log (dev s) |} |}).

Definition set_desc (t : Texture) (d : TextureDesc) : Texture :=
  {| desc_ := d; texture_ := texture_ t;
     imageViewForFramebuffer_ := imageViewForFramebuffer_ t |}.
Definition set_texture (t : Texture) (vt : option VulkanTexture) : Texture :=
  {| desc_ := desc_ t; texture_ := vt;
     imageViewForFramebuffer_ := imageViewForFramebuffer_ t |}.
Definition set_cache (t : Texture) (c : list (option VulkanImageView)) : Texture :=
  {| desc_ := desc_ t; texture_ := texture_ t; imageViewForFramebuffer_ := c |}.

Definition get_desc : M TextureDesc := t <- get_tex ;; ret (desc_ t).
Definition put_desc (d : TextureDesc) : M unit := t <- get_tex ;; put_tex (set_desc t d).

(** A method's result: its [return] value, early or at the end. *)
Definition run (m : M Code) (s : St) : option Code * St :=
  match m s with
  | (inl (Return r), s') => (Some r, s')
  | (inl UB, s') => (None, s')
  | (inr r, s') => (Some r, s')
  end.

(** The usage flags [create] derives from the (normalized) descriptor:
    [TRANSFER_DST] for private storage, one flag per usage bit, and always
    [TRANSFER_SRC]. *)
Definition imageUsageFlags (d : TextureDesc) : N :=
  let f0 := match storage d with
            | Private => VK_IMAGE_USAGE_TRANSFER_DST_BIT | _ => 0 end in
  let f1 := if N.land (usage d) Sampled =? 0 then f0
            else N.lor f0 VK_IMAGE_USAGE_SAMPLED_BIT in
  let f2 := if N.land (usage d) Storage =? 0 then f1
            else N.lor f1 VK_IMAGE_USAGE_STORAGE_BIT in
  let f3 := if N.land (usage d) Attachment =? 0 then f2
            else N.lor f2 (if isDepthOrStencilFormat (format d)
                           then VK_IMAGE_USAGE_DEPTH_STENCIL_ATTACHMENT_BIT
                           else VK_IMAGE_USAGE_COLOR_ATTACHMENT_BIT) in
  N.lor f3 VK_IMAGE_USAGE_TRANSFER_SRC_BIT.

(** ** Texture::create *)

Definition create (ctx : VulkanContext) (desc : TextureDesc) : M Code :=
  t <- get_tex ;;
  put_tex (set_desc t desc) ;;
  let vkFormat := if isDepthOrStencilFormat (format desc)
                  then getClosestDepthStencilFormat ctx (format desc)
                  else textureFormatToVkFormat (format desc) in
  d <- get_desc ;;
  let type_ := type d in
  if negb (IGL_VERIFY (TextureType_beq type_ TwoD || TextureType_beq type_ Cube ||
                       TextureType_beq type_ ThreeD))
  then early Unimplemented else
  (if numMipLevels d =? 0 then put_desc (set_numMipLevels d 1) else ret tt) ;;
  d <- get_desc ;;
  if (1 <? numSamples desc) && negb (numMipLevels d =? 1)
  then early ArgumentOutOfRange else
  if (1 <? numSamples desc) && TextureType_beq type_ ThreeD
  then early ArgumentOutOfRange else
  if negb (IGL_VERIFY (numMipLevels d <=? calcNumMipLevels (width d) (height d)))
  then early ArgumentOutOfRange else
  (if usage d =? 0 then put_desc (set_usage d Sampled) else ret tt) ;;
  d <- get_desc ;;
  let usageFlags := imageUsageFlags d in
  let memFlags := resourceStorageToVkMemoryPropertyFlags (storage d) in
  let arrayLayerCount0 := u32 (numLayers d) in
  match
    match type d with
    | TwoD => Some (VK_IMAGE_VIEW_TYPE_2D, VK_IMAGE_TYPE_2D,
                    getVulkanSampleCountFlags (numSamples d), 0, arrayLayerCount0)
    | ThreeD => Some (VK_IMAGE_VIEW_TYPE_3D, VK_IMAGE_TYPE_3D,
                      VK_SAMPLE_COUNT_1_BIT, 0, arrayLayerCount0)
    | Cube => Some (VK_IMAGE_VIEW_TYPE_CUBE, VK_IMAGE_TYPE_2D,
                    VK_SAMPLE_COUNT_1_BIT, VK_IMAGE_CREATE_CUBE_COMPATIBLE_BIT,
                    u32 (arrayLayerCount0 * 6))
    | _ => None
    end
  with
  | None => early Unimplemented
  | Some (imageViewType, imageType, samples, createFlags, arrayLayerCount) =>
    h <- fresh ;;
    let image := {| img_handle := h; img_type := imageType;
                    img_extent := (u32 (width d), u32 (height d), u32 (depth d));
                    img_format := vkFormat; img_mipLevels := u32 (numMipLevels d);
                    img_arrayLayers := arrayLayerCount; img_usage := usageFlags;
                    img_memFlags := memFlags; img_createFlags := createFlags;
                    img_samples := samples |} in
    emit (EvCreateImage image) ;;
    let '(result, imageOk) := ctx_createImage ctx image in
    if negb (IGL_VERIFY (isOk result)) then early result else
    if negb (IGL_VERIFY imageOk) then early InvalidOperation else
    let aspect := if N.land usageFlags VK_IMAGE_USAGE_DEPTH_STENCIL_ATTACHMENT_BIT =? 0
                  then VK_IMAGE_ASPECT_COLOR_BIT else VK_IMAGE_ASPECT_DEPTH_BIT in
    vh <- fresh ;;
    let imageView := {| view_handle := vh; view_type := imageViewType;
                        view_format := vkFormat; view_aspect := aspect;
                        view_baseMipLevel := 0;
                        view_numMipLevels := VK_REMAINING_MIP_LEVELS;
                        view_baseLayer := 0; view_numLayers := arrayLayerCount |} in
    emit (EvCreateImageView h imageView) ;;
    if negb (IGL_VERIFY (ctx_createImageView ctx imageView)) then early InvalidOperation else
    t <- get_tex ;;
    put_tex (set_texture t (Some {| vt_image := image; vt_view := imageView |})) ;;
    ret Ok
  end.

(** Getters *)
Definition getNumMipLevels (t : Texture) : N := numMipLevels (desc_ t).
Definition getUsage (t : Texture) : N := usage (desc_ t).
Definition getSamples (t : Texture) : N := numSamples (desc_ t).

(** ** Texture::upload and Texture::uploadCube *)

(** Modelled from the spec: [ITexture::validateRange] (not in the
    sources).  A range is accepted iff offset + extent stays within the
    texture's dimensions at the addressed mip level and layer + layer count
    stays within the texture's layer count (times 6 for a cube); otherwise
    it is rejected with [RangeOutOfBounds]. *)
Definition validateRange (d : TextureDesc) (range : TextureRangeDesc.t) : Code :=
  let lvl := TextureRangeDesc.mipLevel range in
  let layers := if TextureType_beq (type d) Cube then numLayers d * 6 else numLayers d in
  if (TextureRangeDesc.x range + TextureRangeDesc.width range <=? mipDim (width d) lvl) &&
     (TextureRangeDesc.y range + TextureRangeDesc.height range <=? mipDim (height d) lvl) &&
     (TextureRangeDesc.z range + TextureRangeDesc.depth range <=? mipDim (depth d) lvl) &&
     (TextureRangeDesc.layer range + TextureRangeDesc.numLayers range <=? layers)
  then Ok else RangeOutOfBounds.

Definition getVkFormat (t : Texture) : VkFormat :=
  match texture_ t with
  | Some vt => img_format (vt_image vt)
  | None => VK_FORMAT_UNDEFINED
  end.

(** The caller's memory is a byte buffer; a pointer into it is an offset.
    [read mem p n] are the [n] bytes at [p] (bytes past the end of the
    buffer, which the C++ code would read out of bounds, read as 0). *)
Definition read (mem : list Byte.byte) (p n : N) : list Byte.byte :=
  map (fun k => nth (N.to_nat p + k) mem Byte.x00) (seq 0 (N.to_nat n)).

(** [memcpy(dst + off, src, src.size())] into a [std::vector<uint8_t>] *)
Definition memcpy (dst : list Byte.byte) (off : N) (src : list Byte.byte) : list Byte.byte :=
  firstn (N.to_nat off) dst ++ src ++ skipn (N.to_nat off + length src) dst.

(** The row loop of the unaligned path:
    [for (h = 0; h < desc_.height; h++) memcpy(linear + h * imageRowWidth,
     data + h * bytesPerRow, imageRowWidth)]. *)
Definition repackRows (mem : list Byte.byte) (data bytesPerRow imageRowWidth rows : N)
    (linearData : list Byte.byte) : list Byte.byte :=
  fold_left (fun buf h =>
               memcpy buf (N.of_nat h * imageRowWidth)
                      (read mem (data + N.of_nat h * bytesPerRow) imageRowWidth))
            (seq 0 (N.to_nat rows)) linearData.

(** The staging transfer of one layer: [imageData3D] for a volumetric
    image, [imageData2D] into layer [range.layer + i] otherwise. *)
Definition layerTransfer (t : Texture) (vt : VulkanTexture) (range : TextureRangeDesc.t)
    (i : N) (uploadData : UploadSrc) : Event :=
  match img_type (vt_image vt) with
  | VK_IMAGE_TYPE_3D =>
    EvImageData3D (img_handle (vt_image vt))
      (u32 (TextureRangeDesc.x range), u32 (TextureRangeDesc.y range),
       u32 (TextureRangeDesc.z range))
      (u32 (TextureRangeDesc.width range), u32 (TextureRangeDesc.height range),
       u32 (TextureRangeDesc.depth range))
      (getVkFormat t) uploadData
  | VK_IMAGE_TYPE_2D =>
    EvImageData2D (img_handle (vt_image vt))
      (u32 (TextureRangeDesc.x range), u32 (TextureRangeDesc.y range),
       u32 (TextureRangeDesc.width range), u32 (TextureRangeDesc.height range))
      (u32 (TextureRangeDesc.mipLevel range))
      (u32 (TextureRangeDesc.numMipLevels range))
      (u32 (TextureRangeDesc.layer range + i))
      (getVkFormat t) uploadData
  end.

(** The layer loop [for (i = 0; i < numLayers; ++i)]: [k] iterations are
    left, [data] is the advancing source pointer and [linearData] the
    temporary buffer, shared by all iterations. *)
Fixpoint upload_layers (mem : list Byte.byte) (range : TextureRangeDesc.t)
    (isAligned : bool) (bytesPerRow imageRowWidth byteIncrement : N)
    (i : N) (k : nat) (data : N) (linearData : list Byte.byte) : M unit :=
  match k with
  | O => ret tt
  | S k' =>
    t <- get_tex ;;
    let '(uploadData, linearData') :=
      if isAligned then (SrcCaller data, linearData)
      else let buf := repackRows mem data bytesPerRow imageRowWidth
                                 (height (desc_ t)) linearData in
           (SrcLinear buf, buf) in
    match texture_ t with
    | None => ub
    | Some vt =>
      emit (layerTransfer t vt range i uploadData) ;;
      upload_layers mem range isAligned bytesPerRow imageRowWidth byteIncrement
                    (i + 1) k' (data + byteIncrement) linearData'
    end
  end.

(** [byteIncrement]: one slice at level 0 when there are several layers,
    plus one slice for each level [1 <= i < range.numMipLevels]. *)
Definition byteIncrementOf (d : TextureDesc) (range : TextureRangeDesc.t) (numLayers_ : N) : N :=
  let w := TextureRangeDesc.width range in
  let h := TextureRangeDesc.height range in
  let dp := TextureRangeDesc.depth range in
  let base := if 1 <? numLayers_ then getTextureBytesPerSlice w h dp (format d) 0 else 0 in
  if 1 <? TextureRangeDesc.numMipLevels range
  then fold_left (fun acc i => acc + getTextureBytesPerSlice w h dp (format d) (N.of_nat i))
                 (seq 1 (N.to_nat (TextureRangeDesc.numMipLevels range) - 1)) base
  else base.

(** [bytesPerPixel], [imageRowWidth] and [isAligned] of [upload]. *)
Definition bytesPerPixelOf (t : Texture) : N :=
  let fmt := vkFormatToTextureFormat (getVkFormat t) in
  if isCompressedTextureFormat fmt then toBytesPerBlock fmt
  else getBytesPerPixel (getVkFormat t).
Definition imageRowWidthOf (t : Texture) : N := width (desc_ t) * bytesPerPixelOf t.
Definition isAlignedOf (t : Texture) (bytesPerRow : N) : bool :=
  isCompressedTextureFormat (vkFormatToTextureFormat (getVkFormat t)) ||
  (bytesPerRow =? 0) || (imageRowWidthOf t =? bytesPerRow).

(** [data] is [None] for a null pointer. *)
Definition upload (mem : list Byte.byte) (range : TextureRangeDesc.t)
    (data : option N) (bytesPerRow : N) : M Code :=
  match data with
  | None => ret Ok
  | Some p =>
    t <- get_tex ;;
    let result := validateRange (desc_ t) range in
    if negb (isOk result) then early result else
    let imageRowWidth := imageRowWidthOf t in
    let isAligned := isAlignedOf t bytesPerRow in
    let linearData := if isAligned then []
                      else repeat Byte.x00 (N.to_nat (imageRowWidth * height (desc_ t))) in
    let numLayers_ := N.max (TextureRangeDesc.numLayers range) 1 in
    let byteIncrement := byteIncrementOf (desc_ t) range numLayers_ in
    upload_layers mem range isAligned bytesPerRow imageRowWidth byteIncrement
                  0 (N.to_nat numLayers_) p linearData ;;
    ret Ok
  end.

Definition srcOfPointer (data : option N) : UploadSrc :=
  match data with None => SrcNull | Some p => SrcCaller p end.

Definition uploadCube (range : TextureRangeDesc.t) (face : TextureCubeFace)
    (data : option N) (bytesPerRow : N) : M Code :=
  t <- get_tex ;;
  let result := validateRange (desc_ t) range in
  if negb (isOk result) then early result else
  match texture_ t with
  | None => ub
  | Some vt =>
    emit (EvImageData2D (img_handle (vt_image vt))
            (u32 (TextureRangeDesc.x range), u32 (TextureRangeDesc.y range),
             u32 (TextureRangeDesc.width range), u32 (TextureRangeDesc.height range))
            (u32 (TextureRangeDesc.mipLevel range))
            (u32 (TextureRangeDesc.numMipLevels range))
            (u32_sub (cubeFaceToU32 face) (cubeFaceToU32 PosX))
            (getVkFormat t) (srcOfPointer data)) ;;
    ret Ok
  end.

(** *** Vocabulary for the statements about [upload] *)

(** [rows] rows of [rowWidth] bytes read at stride [bytesPerRow] from [q],
    packed back to back. *)
Definition tightRows (mem : list Byte.byte) (q bytesPerRow rowWidth rows : N) : list Byte.byte :=
  concat (map (fun h => read mem (q + N.of_nat h * bytesPerRow) rowWidth)
              (seq 0 (N.to_nat rows))).

(** The bytes a transfer reads from its source: [n] bytes at the caller's
    pointer in [mem], or the first [n] bytes of the temporary buffer. *)
Definition handedBytes (mem : list Byte.byte) (src : UploadSrc) (n : N) : list Byte.byte :=
  match src with
  | SrcNull => []
  | SrcCaller q => read mem q n
  | SrcLinear buf => read buf 0 n
  end.

(** The sum over mip levels [0 .. m-1] of the slice sizes of the range's
    extent in format [f]. *)
(** The source a layer transfer is handed when the layer's bytes start at
    [q]: [q] itself on the aligned path, a tightly packed copy of its rows
    otherwise. *)
Definition layerSource (mem : list Byte.byte) (isAligned : bool)
    (bytesPerRow rowWidth rows q : N) : UploadSrc :=
  if isAligned then SrcCaller q else SrcLinear (tightRows mem q bytesPerRow rowWidth rows).

(** [s] with [evs] appended to the device's call log. *)
Definition logged (s : St) (evs : list Event) : St :=
  {| tex := tex s;
     dev := {| dev_next := dev_next (dev s); dev_log := dev_log (dev s) ++ evs |} |}.

Definition mipChainBytes (f : TextureFormat) (range : TextureRangeDesc.t) (m : nat) : N :=
  fold_left (fun acc i => acc + getTextureBytesPerSlice (TextureRangeDesc.width range)
                                  (TextureRangeDesc.height range)
                                  (TextureRangeDesc.depth range) f (N.of_nat i))
            (seq 0 m) 0.

(** ** Texture::getVkImageViewForFramebuffer *)

(** [v[n] = a] on a [std::vector] ([n] within its size) *)
Fixpoint list_set {A} (l : list A) (n : nat) (a : A) : list A :=
  match l, n with
  | [], _ => []
  | _ :: l', O => a :: l'
  | b :: l', S n' => b :: list_set l' n' a
  end.

Definition getVkImageViewForFramebuffer (level : N) : M N :=
  t <- get_tex ;;
  let cache := imageViewForFramebuffer_ t in
  let lv := N.to_nat level in
  match (if Nat.ltb lv (length cache) then nth lv cache None else None) with
  | Some v => ret (view_handle v)
  | None =>
    (if Nat.leb (length cache) lv
     then put_tex (set_cache t (cache ++ repeat None
                                  (N.to_nat (u32 (level + 1)) - length cache)))
     else ret tt) ;;
    t <- get_tex ;;
    match texture_ t with
    | None => ub
    | Some vt =>
      let flags := getImageAspectFlags (vt_image vt) in
      h <- fresh ;;
      let v := {| view_handle := h; view_type := VK_IMAGE_VIEW_TYPE_2D;
                  view_format := textureFormatToVkFormat (format (desc_ t));
                  view_aspect := flags; view_baseMipLevel := level;
                  view_numMipLevels := 1; view_baseLayer := 0; view_numLayers := 1 |} in
      emit (EvCreateImageView (img_handle (vt_image vt)) v) ;;
      t <- get_tex ;;
      put_tex (set_cache t (list_set (imageViewForFramebuffer_ t) lv (Some v))) ;;
      ret (view_handle v)
    end
  end.

(** The entry of the cache at [level] ([None]: absent or past the end). *)
Definition cacheAt (t : Texture) (level : N) : option VulkanImageView :=
  nth (N.to_nat level) (imageViewForFramebuffer_ t) None.

(** ** The remaining accessors of Texture *)

(** [Texture::getDimensions]: [Dimensions{desc_.width, desc_.height, desc_.depth}]. *)
Record Dimensions := { dim_width : N; dim_height : N; dim_depth : N }.

Definition getDimensions (t : Texture) : Dimensions :=
  {| dim_width := width (desc_ t); dim_height := height (desc_ t);
     dim_depth := depth (desc_ t) |}.
Definition getNumLayers (t : Texture) : N := numLayers (desc_ t).
Definition getType (t : Texture) : TextureType := type (desc_ t).

Definition VK_NULL_HANDLE : N := 0.

(** [texture_ ? texture_->getVulkanImageView().vkImageView_ : VK_NULL_HANDLE] *)
Definition getVkImageView (t : Texture) : N :=
  match texture_ t with
  | Some vt => view_handle (vt_view vt)
  | None => VK_NULL_HANDLE
  end.

(** [texture_ ? texture_->getVulkanImage().vkImage_ : VK_NULL_HANDLE] *)
Definition getVkImage (t : Texture) : N :=
  match texture_ t with
  | Some vt => img_handle (vt_image vt)
  | None => VK_NULL_HANDLE
  end.

(** The commands [Texture::generateMipmap] issues on the immediate
    command queue: acquire a command buffer, record the image's
    [generateMipmap] into it, submit it. *)
Inductive ImmediateCmd := CmdAcquire | CmdGenerateMipmap (image : N) | CmdSubmit.

(** [Texture::generateMipmap] is [const] and acts only through the
    immediate queue: its embedding is the list of commands it issues, or
    [None] when it dereferences a null [texture_].  Its assertions are
    no-ops. *)
Definition generateMipmap (t : Texture) : option (list ImmediateCmd) :=
  if 1 <? numMipLevels (desc_ t) then
    match texture_ t with
    | None => None
    | Some vt => Some [CmdAcquire; CmdGenerateMipmap (img_handle (vt_image vt)); CmdSubmit]
    end
  else Some [].

(** ** Vocabulary for the statements about the remaining code *)

(** The format [create] picks for the image and its primary view. *)
Definition vkFormatFor (ctx : VulkanContext) (f : TextureFormat) : VkFormat :=
  if isDepthOrStencilFormat f then getClosestDepthStencilFormat ctx f
  else textureFormatToVkFormat f.

(** [(flags & bit) != 0] *)
Definition hasBit (flags bit : N) : bool := negb (N.land flags bit =? 0).

(** A staging transfer into the image with handle [h]. *)
Definition isTransferTo (h : N) (e : Event) : bool :=
  match e with
  | EvImageData2D image _ _ _ _ _ _ => image =? h
  | EvImageData3D image _ _ _ _ => image =? h
  | _ => false
  end.

(** The destination layer of a 2D transfer. *)
Definition eventLayer (e : Event) : option N :=
  match e with
  | EvImageData2D _ _ _ _ layer _ _ => Some layer
  | _ => None
  end.

(** [range] with another layer and layer count. *)
Definition withLayers (range : TextureRangeDesc.t) (l n : N) : TextureRangeDesc.t :=
  {| TextureRangeDesc.x := TextureRangeDesc.x range;
     TextureRangeDesc.y := TextureRangeDesc.y range;
     TextureRangeDesc.z := TextureRangeDesc.z range;
     TextureRangeDesc.width := TextureRangeDesc.width range;
     TextureRangeDesc.height := TextureRangeDesc.height range;
     TextureRangeDesc.depth := TextureRangeDesc.depth range;
     TextureRangeDesc.layer := l; TextureRangeDesc.numLayers := n;
     TextureRangeDesc.mipLevel := TextureRangeDesc.mipLevel range;
     TextureRangeDesc.numMipLevels := TextureRangeDesc.numMipLevels range |}.

(** ** Concrete devices and textures *)

(** A device on which every allocation succeeds. *)
Definition okContext : VulkanContext :=
  {| getClosestDepthStencilFormat := fun f => f;
     ctx_createImage := fun _ => (Ok, true);
     ctx_createImageView := fun _ => true |}.

Definition emptyDesc : TextureDesc :=
  {| type := TwoD; format := RGBA_UNorm8; width := 0; height := 0; depth := 0;
     numLayers := 0; numSamples := 0; numMipLevels := 0; usage := 0; storage := Private |}.

Definition initSt : St :=
  {| tex := {| desc_ := emptyDesc; texture_ := None; imageViewForFramebuffer_ := [] |};
     dev := {| dev_next := 1; dev_log := [] |} |}.

Definition mkDesc (ty : TextureType) (f : TextureFormat) (w h dp layers samples mips u : N)
  : TextureDesc :=
  {| type := ty; format := f; width := w; height := h; depth := dp;
     numLayers := layers; numSamples := samples; numMipLevels := mips; usage := u;
     storage := Private |}.

Definition mkRange (x y z w h dp layer layers mip mips : N) : TextureRangeDesc.t :=
  {| TextureRangeDesc.x := x; TextureRangeDesc.y := y; TextureRangeDesc.z := z;
     TextureRangeDesc.width := w; TextureRangeDesc.height := h;
     TextureRangeDesc.depth := dp; TextureRangeDesc.layer := layer;
     TextureRangeDesc.numLayers := layers; TextureRangeDesc.mipLevel := mip;
     TextureRangeDesc.numMipLevels := mips |}.

(** A 4x4 RGBA8 2D texture with 3 mip levels, created on [okContext]. *)
Definition tex2D : St :=
  snd (run (create okContext (mkDesc TwoD RGBA_UNorm8 4 4 1 1 1 3 Sampled)) initSt).

Definition allFaces : list TextureCubeFace := [PosX; NegX; PosY; NegY; PosZ; NegZ].

(** A range wider than the 4x4 texture [tex2D] at mip level 0. *)
Definition wideRange : TextureRangeDesc.t := mkRange 0 0 0 5 2 1 0 1 0 1.

(** The primary view of a texture built by [create]: its aspect is the
    image's, and the image's mip count fits in 32 bits. *)
Definition primaryViewWf (vt : VulkanTexture) : Prop :=
  view_aspect (vt_view vt) = getImageAspectFlags (vt_image vt) /\
  img_mipLevels (vt_image vt) < 2 ^ 32.

(** The source of a staging transfer. *)
Definition eventSrc (e : Event) : UploadSrc :=
  match e with
  | EvImageData2D _ _ _ _ _ _ src => src
  | EvImageData3D _ _ _ _ src => src
  | _ => SrcNull
  end.

(** The calls logged on the way from [s] to [s']. *)
Definition newEvents (s s' : St) : list Event :=
  skipn (length (dev_log (dev s))) (dev_log (dev s')).

(** A 4x4 RGBA8 2D texture with two array layers and one mip level. *)
Definition texArr : St :=
  snd (run (create okContext (mkDesc TwoD RGBA_UNorm8 4 4 1 2 1 1 Sampled)) initSt).
Definition arrRange : TextureRangeDesc.t := mkRange 0 0 0 4 4 1 0 2 0 1.

(** A 1x1 R8 2D texture with two array layers, a range over both layers,
    their two pixels tightly packed, and the same pixels with one byte of
    padding after each row. *)
Definition texR8 : St :=
  snd (run (create okContext (mkDesc TwoD R_UNorm8 1 1 1 2 1 1 Sampled)) initSt).
Definition r8Range : TextureRangeDesc.t := mkRange 0 0 0 1 1 1 0 2 0 1.
Definition tightMem : list Byte.byte := [Byte.x01; Byte.x02].
Definition paddedMem : list Byte.byte := [Byte.x01; Byte.x00; Byte.x02; Byte.x00].

(** A 2x2 R8 2D texture with one layer, its full range, its pixels tightly
    packed and the same rows at a stride of 3. *)
Definition texR8s : St :=
  snd (run (create okContext (mkDesc TwoD R_UNorm8 2 2 1 1 1 1 Sampled)) initSt).
Definition r8sRange : TextureRangeDesc.t := mkRange 0 0 0 2 2 1 0 1 0 1.
Definition tightMem4 : list Byte.byte := [Byte.x01; Byte.x02; Byte.x03; Byte.x04].
Definition paddedMem6 : list Byte.byte :=
  [Byte.x01; Byte.x02; Byte.x00; Byte.x03; Byte.x04; Byte.x00].

(** A 2x2 R8 2D texture with one layer and two mip levels, a range over
    both levels, the two levels tightly packed (4 + 1 bytes), and the same
    bytes with level 0's rows at a stride of 3. *)
Definition texR8m : St :=
  snd (run (create okContext (mkDesc TwoD R_UNorm8 2 2 1 1 1 2 Sampled)) initSt).
Definition r8mRange : TextureRangeDesc.t := mkRange 0 0 0 2 2 1 0 1 0 2.
Definition tightMem5 : list Byte.byte := [Byte.x01; Byte.x02; Byte.x03; Byte.x04; Byte.x05].
Definition paddedMem7 : list Byte.byte :=
  [Byte.x01; Byte.x02; Byte.x00; Byte.x03; Byte.x04; Byte.x00; Byte.x05].

(** A 4x4 RGBA8 cube texture and a range addressing one face. *)
Definition texCube : St :=
  snd (run (create okContext (mkDesc Cube RGBA_UNorm8 4 4 1 1 1 1 Sampled)) initSt).
Definition cubeRange : TextureRangeDesc.t := mkRange 0 0 0 4 4 1 2 1 0 1.

(** Descriptors with 4 samples: a cube with one level, 2D textures with
    zero and with two levels. *)
Definition cubeDesc4 : TextureDesc := mkDesc Cube RGBA_UNorm8 4 4 1 1 4 1 Sampled.
Definition msDesc0 : TextureDesc := mkDesc TwoD RGBA_UNorm8 4 4 1 1 4 0 Sampled.
Definition msDesc2 : TextureDesc := mkDesc TwoD RGBA_UNorm8 4 4 1 1 4 2 Sampled.

(** A device whose closest supported depth format for [Z_UNorm24] is
    [S8_UInt_Z24_UNorm]. *)
Definition depthContext : VulkanContext :=
  {| getClosestDepthStencilFormat := fun f =>
       match f with Z_UNorm24 => S8_UInt_Z24_UNorm | _ => f end;
     ctx_createImage := fun _ => (Ok, true);
     ctx_createImageView := fun _ => true |}.

(** A device on which every image allocation fails. *)
Definition failingContext : VulkanContext :=
  {| getClosestDepthStencilFormat := fun f => f;
     ctx_createImage := fun _ => (RuntimeError, false);
     ctx_createImageView := fun _ => true |}.

(** A device that allocates images but returns no image view. *)
Definition nullViewContext : VulkanContext :=
  {| getClosestDepthStencilFormat := fun f => f;
     ctx_createImage := fun _ => (Ok, true);
     ctx_createImageView := fun _ => false |}.

(** A 4x4 Z24 depth attachment and a 2D array descriptor with 3 levels
    (2D arrays are not supported by [create]). *)
Definition depthDesc : TextureDesc := mkDesc TwoD Z_UNorm24 4 4 1 1 1 1 Attachment.
Definition arrayDesc : TextureDesc := mkDesc TwoDArray RGBA_UNorm8 4 4 1 2 1 3 Sampled.

(** A 2D descriptor with zero mip levels and an empty usage set. *)
Definition bareDesc : TextureDesc := mkDesc TwoD RGBA_UNorm8 4 4 1 1 1 0 0.

(** ** Properties *)

Example create_tex2D_ok :
  fst (run (create okContext (mkDesc TwoD RGBA_UNorm8 4 4 1 1 1 3 Sampled)) initSt) = Some Ok.
Proof. vm_compute. reflexivity. Qed.


Lemma u32_sub_face_PosX (f : TextureCubeFace) :
  u32_sub (cubeFaceToU32 f) (cubeFaceToU32 PosX) = cubeFaceToU32 f.
Proof. destruct f; vm_compute; reflexivity. Qed.

Lemma validateRange_cases (d : TextureDesc) (range : TextureRangeDesc.t) :
  validateRange d range = Ok \/ validateRange d range = RangeOutOfBounds.
Proof. unfold validateRange. destruct (_ && _); auto. Qed.

(** C4: with a null source pointer, [upload] returns [Ok] and changes
    nothing: no staging transfer is recorded and the texture is untouched,
    whatever the range and the row stride. *)
Theorem upload_null_pointer_noop (mem : list Byte.byte) (range : TextureRangeDesc.t)
    (bytesPerRow : N) (s : St) :
  run (upload mem range None bytesPerRow) s = (Some Ok, s).
Proof. reflexivity. Qed.

(** C1 (counterexample): [wideRange] escapes [tex2D] at mip level 0, yet
    [upload] with a null pointer returns [Ok], not [RangeOutOfBounds]: the
    null check comes before [validateRange]. *)
Lemma upload_out_of_range_null_is_ok :
  validateRange (desc_ (tex tex2D)) wideRange = RangeOutOfBounds /\
  run (upload [] wideRange None 0) tex2D = (Some Ok, tex2D).
Proof. split; vm_compute; reflexivity. Qed.

(** C1 (amended): a range escaping the texture's dimensions at its mip
    level, or its layer count, makes [upload] with a non-null pointer return
    [RangeOutOfBounds] and leave the texture and the device untouched; with
    a null pointer [upload] returns [Ok], also without any transfer. *)
Theorem upload_out_of_range_rejected (mem : list Byte.byte) (range : TextureRangeDesc.t)
    (data : option N) (bytesPerRow : N) (s : St) :
  validateRange (desc_ (tex s)) range <> Ok ->
  run (upload mem range data bytesPerRow) s =
    (Some (match data with None => Ok | Some _ => RangeOutOfBounds end), s).
Proof.
  intros Hr. destruct data as [p|]; [|reflexivity].
  assert (Hv : validateRange (desc_ (tex s)) range = RangeOutOfBounds).
  { destruct (validateRange_cases (desc_ (tex s)) range); tauto. }
  unfold run, upload, bind, get_tex; cbn. rewrite Hv. reflexivity.
Qed.

(** C7: a validated [uploadCube] issues one 2D copy whose destination layer
    is the face's ordinal; the faces PosX..NegZ have ordinals 0..5. *)
Theorem uploadCube_face_layer (range : TextureRangeDesc.t) (face : TextureCubeFace)
    (data : option N) (bytesPerRow : N) (s : St) (vt : VulkanTexture) :
  texture_ (tex s) = Some vt ->
  validateRange (desc_ (tex s)) range = Ok ->
  (exists s', run (uploadCube range face data bytesPerRow) s = (Some Ok, s') /\
     tex s' = tex s /\
     exists region mip mips fmt src,
       dev_log (dev s') = dev_log (dev s) ++
         [EvImageData2D (img_handle (vt_image vt)) region mip mips
                        (cubeFaceToU32 face) fmt src]) /\
  map cubeFaceToU32 allFaces = [0; 1; 2; 3; 4; 5].
Proof.
  intros Ht Hr. split; [|reflexivity].
  unfold run, uploadCube, bind, get_tex. rewrite Hr, Ht. cbn.
  eexists; split; [reflexivity|]. split; [reflexivity|].
  rewrite u32_sub_face_PosX. do 5 eexists. reflexivity.
Qed.

(** C10: [uploadCube] has no null-pointer shortcut: a validated call
    records a 2D copy whose source is the caller's pointer as given, null
    included, while [upload] returns [Ok] on a null pointer without any
    transfer. *)
Theorem uploadCube_passes_null_pointer (mem : list Byte.byte) (range : TextureRangeDesc.t)
    (face : TextureCubeFace) (data : option N) (bytesPerRow : N) (s : St)
    (vt : VulkanTexture) :
  texture_ (tex s) = Some vt ->
  validateRange (desc_ (tex s)) range = Ok ->
  (exists s', run (uploadCube range face data bytesPerRow) s = (Some Ok, s') /\
     exists region mip mips layer fmt,
       dev_log (dev s') = dev_log (dev s) ++
         [EvImageData2D (img_handle (vt_image vt)) region mip mips layer fmt
                        (srcOfPointer data)]) /\
  srcOfPointer None = SrcNull /\
  run (upload mem range None bytesPerRow) s = (Some Ok, s).
Proof.
  intros Ht Hr. split; [|split; reflexivity].
  unfold run, uploadCube, bind, get_tex. rewrite Hr, Ht. cbn.
  eexists; split; [reflexivity|]. do 5 eexists. reflexivity.
Qed.

Ltac crunch :=
  repeat (unfold set_usage, set_numMipLevels, set_desc, set_texture in *;
          cbn -[imageUsageFlags calcNumMipLevels getVulkanSampleCountFlags];
          match goal with
               | |- context [if ?b then _ else _] => destruct b eqn:?
               | |- context [match ?e with (_, _) => _ end] =>
                   lazymatch e with ctx_createImage _ _ => destruct e eqn:? end
               end);
  unfold set_usage, set_numMipLevels, set_desc, set_texture in *;
  cbn -[imageUsageFlags calcNumMipLevels getVulkanSampleCountFlags].

Ltac bool_to_prop :=
  unfold IGL_VERIFY in *;
  repeat match goal with
  | H : negb _ = true |- _ => apply negb_true_iff in H
  | H : negb _ = false |- _ => apply negb_false_iff in H
  | H : (_ && _) = true |- _ => apply andb_true_iff in H; destruct H
  | H : (_ =? _) = true |- _ => apply N.eqb_eq in H
  | H : (_ =? _) = false |- _ => apply N.eqb_neq in H
  | H : (_ <? _) = true |- _ => apply N.ltb_lt in H
  | H : (_ <? _) = false |- _ => apply N.ltb_ge in H
  | H : (_ <=? _) = true |- _ => apply N.leb_le in H
  | H : (_ <=? _) = false |- _ => apply N.leb_gt in H
  end.

Lemma calcNumMipLevels_pos (w h : N) : 1 <= calcNumMipLevels w h.
Proof. unfold calcNumMipLevels. lia. Qed.

Lemma create_multisample_mips0_requested (ctx : VulkanContext) (desc : TextureDesc) (s : St) :
  (type desc = TwoD \/ type desc = Cube) -> numMipLevels desc = 0 ->
  exists img rest,
    dev_log (dev (snd (run (create ctx desc) s))) = dev_log (dev s) ++ EvCreateImage img :: rest /\
    img_mipLevels img = 1 /\
    (ctx_createImage ctx img = (Ok, true) ->
     exists v, rest = [EvCreateImageView (img_handle img) v] /\
       (ctx_createImageView ctx v = true -> fst (run (create ctx desc) s) = Some Ok)).
Proof.
  destruct desc as [ty fm wd ht dp ly ns nm us sto]; cbn in *.
  intros Hty ->.
  unfold run, create, bind, get_tex, put_tex, get_desc, put_desc, ret, early;
  cbn -[imageUsageFlags calcNumMipLevels getVulkanSampleCountFlags].
  destruct Hty as [ -> | -> ]; crunch.
  all: bool_to_prop;
       try discriminate; try (pose proof (calcNumMipLevels_pos wd ht); lia).
  all: do 2 eexists; split; [rewrite <- ?app_assoc; reflexivity|].
  all: split; [reflexivity|]; intros Hc.
  all: match goal with
       | H : ctx_createImage _ _ = (_, _) |- _ => rewrite Hc in H; injection H as <- <-
       end.
  all: cbn in *; try congruence.
  all: eexists; split; [reflexivity|]; intros Hv; bool_to_prop; congruence.
Qed.

(** C2 (amended): for a descriptor of a supported type with more than one
    sample, [create] fails with [ArgumentOutOfRange] before creating any
    device object whenever two or more mip levels are requested or the type
    is [ThreeD].  A [TwoD] or [Cube] descriptor with zero mip levels is not
    rejected: its level count is normalized to 1, it passes validation and
    [create] requests a one-level image; [create] then succeeds when the
    device creates the image and its view. *)
Theorem create_multisample_rejected (ctx : VulkanContext) (desc : TextureDesc) (s : St) :
  (type desc = TwoD \/ type desc = ThreeD \/ type desc = Cube) ->
  1 < numSamples desc ->
  ((2 <= numMipLevels desc \/ type desc = ThreeD) ->
   fst (run (create ctx desc) s) = Some ArgumentOutOfRange /\
   dev (snd (run (create ctx desc) s)) = dev s) /\
  (type desc <> ThreeD -> numMipLevels desc = 0 ->
   exists img rest,
     dev_log (dev (snd (run (create ctx desc) s))) = dev_log (dev s) ++ EvCreateImage img :: rest /\
     img_mipLevels img = 1 /\
     (ctx_createImage ctx img = (Ok, true) ->
      exists v, rest = [EvCreateImageView (img_handle img) v] /\
        (ctx_createImageView ctx v = true -> fst (run (create ctx desc) s) = Some Ok))).
Proof.
  intros Hty Hs. split.
  2:{ intros H3 Hm0. apply create_multisample_mips0_requested; [|exact Hm0].
      destruct Hty as [H|[H|H]]; [left|contradiction|right]; exact H. }
  intros Hm.
  destruct desc as [ty fm wd ht dp ly ns nm us sto]; cbn in *.
  assert (Hs' : (1 <? ns) = true) by (apply N.ltb_lt; exact Hs).
  unfold run, create, bind, get_tex, put_tex, get_desc, put_desc, ret, early;
  cbn -[imageUsageFlags calcNumMipLevels getVulkanSampleCountFlags].
  rewrite Hs'.
  destruct Hty as [ -> | [ -> | -> ] ];
    [destruct Hm as [Hm|Hm]; [|discriminate] | | destruct Hm as [Hm|Hm]; [|discriminate]];
    crunch.
  all: try (split; reflexivity).
  all: bool_to_prop; cbn in *; lia.
Qed.

Lemma create_mips0_same (ctx : VulkanContext) (desc : TextureDesc) (s : St) :
  (type desc = TwoD \/ type desc = ThreeD \/ type desc = Cube) ->
  create ctx (set_numMipLevels desc 0) s = create ctx (set_numMipLevels desc 1) s.
Proof.
  intros Hty. destruct desc as [ty fm wd ht dp ly ns nm us sto]; cbn in *.
  destruct Hty as [ -> | [ -> | -> ] ]; cbn; reflexivity.
Qed.

Lemma create_usage0_same (ctx : VulkanContext) (desc : TextureDesc) (s : St) :
  fst (run (create ctx (set_usage desc 0)) s) = fst (run (create ctx (set_usage desc Sampled)) s) /\
  dev (snd (run (create ctx (set_usage desc 0)) s)) = dev (snd (run (create ctx (set_usage desc Sampled)) s)).
Proof.
  destruct desc as [ty fm wd ht dp ly ns nm us sto]; cbn in *.
  unfold run, create, bind, get_tex, put_tex, get_desc, put_desc, ret, early;
  cbn -[imageUsageFlags calcNumMipLevels getVulkanSampleCountFlags].
  destruct ty; crunch.
  all: try (split; reflexivity).
Qed.

Lemma create_ok_getters (ctx : VulkanContext) (desc : TextureDesc) (s : St) :
  fst (run (create ctx desc) s) = Some Ok ->
  getNumMipLevels (tex (snd (run (create ctx desc) s))) =
    (if numMipLevels desc =? 0 then 1 else numMipLevels desc) /\
  getUsage (tex (snd (run (create ctx desc) s))) =
    (if usage desc =? 0 then Sampled else usage desc).
Proof.
  destruct desc as [ty fm wd ht dp ly ns nm us sto]; cbn in *.
  unfold run, create, bind, get_tex, put_tex, get_desc, put_desc, ret, early;
  cbn -[imageUsageFlags calcNumMipLevels getVulkanSampleCountFlags].
  destruct ty; crunch; intros H; try discriminate H.
  all: unfold getNumMipLevels, getUsage; cbn; split; reflexivity.
Qed.

(** C9: a [Cube] or [ThreeD] texture's image is always created with one
    sample, whatever [numSamples] asks for; a multisampled [Cube] with one
    mip level passes validation, its image is created single-sampled, and
    [create] succeeds when the device creates the image and its view. *)
Theorem create_cube_single_sampled (ctx : VulkanContext) (desc : TextureDesc) (s : St) :
  (type desc = Cube \/ type desc = ThreeD ->
   exists new, dev_log (dev (snd (run (create ctx desc) s))) = dev_log (dev s) ++ new /\
     forall img, In (EvCreateImage img) new -> img_samples img = VK_SAMPLE_COUNT_1_BIT) /\
  (type desc = Cube -> 1 < numSamples desc -> numMipLevels desc = 1 ->
   exists img rest,
     dev_log (dev (snd (run (create ctx desc) s))) = dev_log (dev s) ++ EvCreateImage img :: rest /\
     img_samples img = VK_SAMPLE_COUNT_1_BIT /\ img_type img = VK_IMAGE_TYPE_2D /\
     (ctx_createImage ctx img = (Ok, true) ->
      exists v, rest = [EvCreateImageView (img_handle img) v] /\
        (ctx_createImageView ctx v = true -> fst (run (create ctx desc) s) = Some Ok))).
Proof.
  destruct desc as [ty fm wd ht dp ly ns nm us sto]; cbn in *.
  unfold run, create, bind, get_tex, put_tex, get_desc, put_desc, ret, early;
  cbn -[imageUsageFlags calcNumMipLevels getVulkanSampleCountFlags].
  split.
  - intros [ -> | -> ]; crunch.
    all: first [ exists []; split; [symmetry; apply app_nil_r | intros ? []]
               | eexists; split; [rewrite <- ?app_assoc; reflexivity | ] ].
    all: intros img Hin; cbn in Hin;
         repeat destruct Hin as [Hin|Hin]; try discriminate; try contradiction;
         inversion Hin; reflexivity.
  - intros -> Hs ->.
    assert (Hs' : (1 <? ns) = true) by (apply N.ltb_lt; exact Hs).
    rewrite Hs'. crunch.
    all: bool_to_prop;
         try (pose proof (calcNumMipLevels_pos wd ht); lia).
    all: do 2 eexists; split; [rewrite <- ?app_assoc; reflexivity|].
    all: split; [reflexivity|]; split; [reflexivity|]; intros Hc.
    all: match goal with
         | H : ctx_createImage _ _ = (_, _) |- _ => rewrite Hc in H; injection H as <- <-
         end.
    all: cbn in *; try congruence.
    all: eexists; split; [reflexivity|]; intros Hv; bool_to_prop; congruence.
Qed.


(** C3: a zero mip-level count is not an error: [create] behaves exactly as
    with one mip level (for every supported type).  An empty usage set is
    not an error either: [create] returns the same result and makes the
    same device calls as with [Sampled].  After a successful [create],
    [getNumMipLevels] and [getUsage] report the corrected values. *)
Theorem create_normalizes_mips_and_usage (ctx : VulkanContext) (desc : TextureDesc) (s : St) :
  ((type desc = TwoD \/ type desc = ThreeD \/ type desc = Cube) ->
   create ctx (set_numMipLevels desc 0) s = create ctx (set_numMipLevels desc 1) s) /\
  (fst (run (create ctx (set_usage desc 0)) s) =
     fst (run (create ctx (set_usage desc Sampled)) s) /\
   dev (snd (run (create ctx (set_usage desc 0)) s)) =
     dev (snd (run (create ctx (set_usage desc Sampled)) s))) /\
  (fst (run (create ctx desc) s) = Some Ok ->
   getNumMipLevels (tex (snd (run (create ctx desc) s))) =
     (if numMipLevels desc =? 0 then 1 else numMipLevels desc) /\
   getUsage (tex (snd (run (create ctx desc) s))) =
     (if usage desc =? 0 then Sampled else usage desc)).
Proof.
  split; [apply create_mips0_same|].
  split; [apply create_usage0_same|apply create_ok_getters].
Qed.

(** *** The framebuffer view cache *)

Lemma list_set_length {A} (l : list A) (n : nat) (a : A) :
  length (list_set l n a) = length l.
Proof. revert n; induction l as [|b l IH]; intros [|n]; cbn; auto. Qed.

Lemma nth_list_set_eq {A} (l : list A) (n : nat) (a d : A) :
  (n < length l)%nat -> nth n (list_set l n a) d = a.
Proof.
  revert n; induction l as [|b l IH]; intros [|n] Hn; cbn in *; try lia; auto.
  apply IH; lia.
Qed.

Lemma nth_list_set_neq {A} (l : list A) (n m : nat) (a d : A) :
  m <> n -> nth m (list_set l n a) d = nth m l d.
Proof.
  revert n m; induction l as [|b l IH]; intros [|n] [|m] Hmn; cbn; auto; try lia.
Qed.

Lemma nth_app_repeat_None {A} (l : list (option A)) (k m : nat) :
  nth m (l ++ repeat None k) None = nth m l None.
Proof.
  destruct (Nat.lt_ge_cases m (length l)) as [Hm|Hm].
  - apply app_nth1; exact Hm.
  - rewrite app_nth2 by exact Hm. rewrite (nth_overflow l) by exact Hm.
    destruct (Nat.lt_ge_cases (m - length l) k) as [Hk|Hk].
    + apply nth_repeat.
    + apply nth_overflow. rewrite repeat_length. exact Hk.
Qed.

Lemma guarded_nth {A} (l : list (option A)) (n : nat) :
  (if Nat.ltb n (length l) then nth n l None else None) = nth n l None.
Proof.
  destruct (Nat.ltb_spec n (length l)); [reflexivity|].
  symmetry; apply nth_overflow; exact H.
Qed.

Lemma u32_small (v : N) : v < 2 ^ 32 -> u32 v = v.
Proof. intros H. unfold u32. apply N.mod_small. exact H. Qed.

Lemma u32_lt (v : N) : u32 v < 2 ^ 32.
Proof. unfold u32. apply N.mod_lt. discriminate. Qed.

Lemma create_primaryViewWf (ctx : VulkanContext) (desc : TextureDesc) (s : St) :
  fst (run (create ctx desc) s) = Some Ok ->
  exists vt, texture_ (tex (snd (run (create ctx desc) s))) = Some vt /\ primaryViewWf vt.
Proof.
  destruct desc as [ty fm wd ht dp ly ns nm us sto]; cbn in *.
  unfold run, create, bind, get_tex, put_tex, get_desc, put_desc, ret, early;
  cbn -[imageUsageFlags calcNumMipLevels getVulkanSampleCountFlags].
  destruct ty; crunch; intros H; try discriminate H.
  all: try (injection H as ->; bool_to_prop; cbn in *; discriminate).
  all: eexists; split; [reflexivity|]; split.
  all: first [ apply u32_lt | unfold N.lt; reflexivity
              | unfold getImageAspectFlags; cbn; crunch; congruence ].
Qed.

(** C8: asking for the framebuffer view of mip level [L] of a created
    texture either finds the cached view and returns it without touching
    anything, or, on a miss, creates exactly one single-mip, single-layer
    view of level [L] with the primary view's aspect, stores it at index
    [L] (every other index keeps its entry) and returns it; asking again
    for [L] then returns that same view and changes nothing. *)
Theorem getVkImageViewForFramebuffer_caches (s : St) (vt : VulkanTexture) (L : N) :
  texture_ (tex s) = Some vt ->
  primaryViewWf vt ->
  L < img_mipLevels (vt_image vt) ->
  (cacheAt (tex s) L = None ->
   exists v s1,
     getVkImageViewForFramebuffer L s = (inr (view_handle v), s1) /\
     dev_log (dev s1) = dev_log (dev s) ++ [EvCreateImageView (img_handle (vt_image vt)) v] /\
     view_type v = VK_IMAGE_VIEW_TYPE_2D /\
     view_baseMipLevel v = L /\ view_numMipLevels v = 1 /\
     view_baseLayer v = 0 /\ view_numLayers v = 1 /\
     view_aspect v = view_aspect (vt_view vt) /\
     cacheAt (tex s1) L = Some v /\
     (forall L', L' <> L -> cacheAt (tex s1) L' = cacheAt (tex s) L') /\
     texture_ (tex s1) = texture_ (tex s) /\
     getVkImageViewForFramebuffer L s1 = (inr (view_handle v), s1)) /\
  (forall v, cacheAt (tex s) L = Some v ->
   getVkImageViewForFramebuffer L s = (inr (view_handle v), s)).
Proof.
  intros Ht [Hasp Hmip] HL.
  assert (Hsmall : u32 (L + 1) = L + 1) by (apply u32_small; lia).
  split.
  - intros Hnone. unfold cacheAt in Hnone.
    unfold getVkImageViewForFramebuffer, bind, get_tex, put_tex, fresh, emit, ret.
    cbn -[Nat.ltb Nat.leb]. rewrite guarded_nth, Hnone.
    unfold set_cache. rewrite Hsmall, N2Nat.inj_add. change (N.to_nat 1) with 1%nat.
    destruct (Nat.leb_spec (length (imageViewForFramebuffer_ (tex s))) (N.to_nat L))
      as [Hle|Hle]; cbn -[Nat.ltb Nat.leb]; rewrite Ht.
    all: match goal with |- context [list_set _ _ (Some ?v)] => exists v end.
    all: eexists; split; [reflexivity|]; cbn -[Nat.ltb Nat.leb].
    all: do 6 (split; [reflexivity|]).
    all: split; [rewrite Hasp; reflexivity|].
    all: match goal with
         | |- context [list_set ?c _ _] =>
             assert (Hlen : (N.to_nat L < length c)%nat)
               by (rewrite ?length_app, ?repeat_length; lia)
         end.
    all: split; [unfold cacheAt; cbn; apply nth_list_set_eq; exact Hlen|].
    all: split; [intros L' HL'; unfold cacheAt; cbn;
                 rewrite nth_list_set_neq
                   by (intros E; apply HL'; apply N2Nat.inj; exact E);
                 rewrite ?nth_app_repeat_None; reflexivity|].
    all: split; [cbn; first [reflexivity | rewrite Ht; reflexivity]|].
    all: unfold getVkImageViewForFramebuffer, bind, get_tex, ret;
         cbn -[Nat.ltb Nat.leb]; rewrite guarded_nth, nth_list_set_eq by exact Hlen;
         reflexivity.
  - intros v Hv. unfold cacheAt in Hv.
    unfold getVkImageViewForFramebuffer, bind, get_tex, ret.
    cbn -[Nat.ltb Nat.leb]. rewrite guarded_nth, Hv. reflexivity.
Qed.

(** *** The upload loop *)

Lemma read_length (mem : list Byte.byte) (q n : N) : length (read mem q n) = N.to_nat n.
Proof. unfold read. rewrite length_map, length_seq. reflexivity. Qed.

Lemma memcpy_app (pre rest row : list Byte.byte) (off : N) :
  length pre = N.to_nat off ->
  memcpy (pre ++ rest) off row = pre ++ row ++ skipn (length row) rest.
Proof.
  intros Hl. unfold memcpy. rewrite <- Hl.
  rewrite firstn_app, Nat.sub_diag, firstn_all, firstn_O, app_nil_r.
  rewrite skipn_app, skipn_all2 by lia. cbn [app].
  f_equal. f_equal. f_equal. lia.
Qed.

Lemma length_concat_rows (mem : list Byte.byte) (q bytesPerRow rowWidth : N) (k : nat) :
  length (concat (map (fun h => read mem (q + N.of_nat h * bytesPerRow) rowWidth) (seq 0 k)))
  = (k * N.to_nat rowWidth)%nat.
Proof.
  induction k as [|k IH]; [reflexivity|].
  rewrite seq_S, map_app, concat_app, length_app, IH. cbn.
  rewrite app_nil_r, read_length. lia.
Qed.

Lemma repackRows_prefix (mem buf : list Byte.byte) (q bytesPerRow rowWidth : N) (k : nat) :
  fold_left (fun buf h =>
               memcpy buf (N.of_nat h * rowWidth)
                      (read mem (q + N.of_nat h * bytesPerRow) rowWidth))
            (seq 0 k) buf
  = concat (map (fun h => read mem (q + N.of_nat h * bytesPerRow) rowWidth) (seq 0 k))
    ++ skipn (k * N.to_nat rowWidth) buf.
Proof.
  induction k as [|k IH]; [reflexivity|].
  rewrite seq_S, fold_left_app, IH. cbn [fold_left].
  rewrite memcpy_app.
  - rewrite map_app, concat_app. cbn [map concat]. rewrite app_nil_r, <- !app_assoc.
    rewrite skipn_skipn, read_length. replace (S k * N.to_nat rowWidth)%nat with (N.to_nat rowWidth + k * N.to_nat rowWidth)%nat by lia. reflexivity.
  - rewrite length_concat_rows, N2Nat.inj_mul, Nat2N.id. reflexivity.
Qed.

Lemma repackRows_tight (mem buf : list Byte.byte) (q bytesPerRow rowWidth rows : N) :
  length buf = N.to_nat (rowWidth * rows) ->
  repackRows mem q bytesPerRow rowWidth rows buf = tightRows mem q bytesPerRow rowWidth rows.
Proof.
  intros Hl. unfold repackRows, tightRows. rewrite repackRows_prefix.
  rewrite skipn_all2, app_nil_r; [reflexivity|].
  rewrite Hl, N2Nat.inj_mul. lia.
Qed.

Lemma tightRows_length (mem : list Byte.byte) (q bytesPerRow rowWidth rows : N) :
  length (tightRows mem q bytesPerRow rowWidth rows) = N.to_nat (rowWidth * rows).
Proof. unfold tightRows. rewrite length_concat_rows, N2Nat.inj_mul. lia. Qed.

Lemma upload_layers_spec (mem : list Byte.byte) (range : TextureRangeDesc.t)
    (isAligned : bool) (bytesPerRow rowWidth inc : N) (vt : VulkanTexture) :
  forall k i data lin s,
  texture_ (tex s) = Some vt ->
  (isAligned = false -> length lin = N.to_nat (rowWidth * height (desc_ (tex s)))) ->
  upload_layers mem range isAligned bytesPerRow rowWidth inc i k data lin s =
  (inr tt, {| tex := tex s;
              dev := {| dev_next := dev_next (dev s);
                        dev_log := dev_log (dev s) ++
                          map (fun j => layerTransfer (tex s) vt range (i + N.of_nat j)
                                 (layerSource mem isAligned bytesPerRow rowWidth
                                    (height (desc_ (tex s))) (data + N.of_nat j * inc)))
                              (seq 0 k) |} |}).
Proof.
  induction k as [|k IH]; intros i data lin s Ht Hl.
  - cbn. rewrite app_nil_r. destruct s as [t [n l]]. reflexivity.
  - cbn [upload_layers]. unfold bind at 1, get_tex.
    destruct isAligned eqn:Ha.
    + rewrite Ht. unfold bind, emit.
      rewrite IH by (cbn; auto || discriminate).
      cbn [tex dev dev_next dev_log]. rewrite <- app_assoc. cbn [app seq map].
      rewrite <- seq_shift, map_map. do 4 f_equal. f_equal.
      * change (N.of_nat 0) with 0. rewrite N.add_0_r, N.mul_0_l, N.add_0_r. reflexivity.
      * apply map_ext. intros j.
        replace (i + 1 + N.of_nat j) with (i + N.of_nat (S j)) by lia.
        replace (data + inc + N.of_nat j * inc) with (data + N.of_nat (S j) * inc) by lia.
        reflexivity.
    + rewrite Ht. unfold bind, emit.
      rewrite IH.
      * cbn. rewrite <- app_assoc. cbn [app seq map].
        rewrite <- seq_shift, map_map. do 4 f_equal. f_equal.
        -- rewrite !N.add_0_r, repackRows_tight by auto. reflexivity.
        -- apply map_ext. intros j.
           replace (i + 1 + N.of_nat j) with (i + N.of_nat (S j)) by lia.
           replace (data + inc + N.of_nat j * inc) with (data + N.of_nat (S j) * inc) by lia.
           reflexivity.
      * cbn. assumption.
      * intros _. cbn. rewrite repackRows_tight by auto. apply tightRows_length.
Qed.

Lemma byteIncrementOf_chain (d : TextureDesc) (range : TextureRangeDesc.t) (nl : N) :
  1 < nl ->
  byteIncrementOf d range nl =
  mipChainBytes (format d) range (N.to_nat (N.max 1 (TextureRangeDesc.numMipLevels range))).
Proof.
  intros Hn. unfold byteIncrementOf, mipChainBytes.
  rewrite (proj2 (N.ltb_lt _ _) Hn).
  destruct (1 <? TextureRangeDesc.numMipLevels range) eqn:Hm.
  - apply N.ltb_lt in Hm. rewrite N.max_r by lia.
    destruct (N.to_nat (TextureRangeDesc.numMipLevels range)) as [|m] eqn:E; [lia|].
    rewrite Nat.sub_succ, Nat.sub_0_r. reflexivity.
  - apply N.ltb_ge in Hm. rewrite N.max_l by lia. reflexivity.
Qed.

Lemma upload_some_spec (mem : list Byte.byte) (range : TextureRangeDesc.t) (p bytesPerRow : N)
    (s : St) (vt : VulkanTexture) :
  texture_ (tex s) = Some vt ->
  validateRange (desc_ (tex s)) range = Ok ->
  run (upload mem range (Some p) bytesPerRow) s =
  (Some Ok,
   {| tex := tex s;
      dev := {| dev_next := dev_next (dev s);
                dev_log := dev_log (dev s) ++
                  map (fun j => layerTransfer (tex s) vt range (N.of_nat j)
                         (layerSource mem (isAlignedOf (tex s) bytesPerRow) bytesPerRow
                            (imageRowWidthOf (tex s)) (height (desc_ (tex s)))
                            (p + N.of_nat j *
                               byteIncrementOf (desc_ (tex s)) range
                                 (N.max (TextureRangeDesc.numLayers range) 1))))
                      (seq 0 (N.to_nat (N.max (TextureRangeDesc.numLayers range) 1))) |} |}).
Proof.
  intros Ht Hv. unfold run, upload, bind at 1, get_tex. rewrite Hv.
  change (negb (isOk Ok)) with false. cbv iota. unfold bind.
  rewrite upload_layers_spec with (vt := vt); auto.
  intros Ha. rewrite Ha, repeat_length. reflexivity.
Qed.

(** C5: a valid upload of [n >= 2] layers whose mip span has at least one
    level issues one transfer per layer, layers in increasing order, and
    the source of layer [i] starts at [i * S] from the caller's pointer,
    where [S] sums the slice sizes of levels [0 .. range.numMipLevels - 1]
    for the range's extent and the texture's format. *)
Theorem upload_layer_offsets (mem : list Byte.byte) (range : TextureRangeDesc.t)
    (p bytesPerRow : N) (s : St) (vt : VulkanTexture) :
  texture_ (tex s) = Some vt ->
  validateRange (desc_ (tex s)) range = Ok ->
  2 <= TextureRangeDesc.numLayers range ->
  1 <= TextureRangeDesc.numMipLevels range ->
  let t := tex s in
  let S := mipChainBytes (format (desc_ t)) range
             (N.to_nat (TextureRangeDesc.numMipLevels range)) in
  run (upload mem range (Some p) bytesPerRow) s =
  (Some Ok,
   {| tex := t;
      dev := {| dev_next := dev_next (dev s);
                dev_log := dev_log (dev s) ++
                  map (fun i => layerTransfer t vt range (N.of_nat i)
                         (layerSource mem (isAlignedOf t bytesPerRow) bytesPerRow
                            (imageRowWidthOf t) (height (desc_ t)) (p + N.of_nat i * S)))
                      (seq 0 (N.to_nat (TextureRangeDesc.numLayers range))) |} |}).
Proof.
  intros Ht Hv Hn Hm t S. rewrite upload_some_spec with (vt := vt) by assumption.
  rewrite N.max_l by lia. rewrite byteIncrementOf_chain by lia.
  rewrite N.max_r by exact Hm. reflexivity.
Qed.

Lemma nth_read (mem : list Byte.byte) (q n : N) (i : nat) (d : Byte.byte) :
  (i < N.to_nat n)%nat -> nth i (read mem q n) d = nth (N.to_nat q + i) mem Byte.x00.
Proof.
  intros Hi. unfold read.
  set (f := fun k => nth (N.to_nat q + k) mem Byte.x00).
  rewrite (nth_indep _ d (f O)) by (rewrite length_map, length_seq; exact Hi).
  rewrite map_nth, seq_nth by exact Hi. reflexivity.
Qed.

Lemma read_split (mem : list Byte.byte) (q a b : N) :
  read mem q (a + b) = read mem q a ++ read mem (q + a) b.
Proof.
  apply nth_ext with (d := Byte.x00) (d' := Byte.x00).
  - rewrite length_app, !read_length. lia.
  - intros i Hi. rewrite read_length in Hi. rewrite nth_read by exact Hi.
    destruct (Nat.lt_ge_cases i (N.to_nat a)) as [Ha | Ha].
    + rewrite app_nth1 by (rewrite read_length; exact Ha). rewrite nth_read by exact Ha.
      reflexivity.
    + rewrite app_nth2 by (rewrite read_length; exact Ha). rewrite read_length.
      rewrite nth_read by lia. f_equal. lia.
Qed.

Lemma read_all (l : list Byte.byte) (n : N) :
  length l = N.to_nat n -> read l 0 n = l.
Proof.
  intros Hl. apply nth_ext with (d := Byte.x00) (d' := Byte.x00).
  - rewrite read_length. auto.
  - intros i Hi. rewrite read_length in Hi. rewrite nth_read by exact Hi.
    apply nth_indep. lia.
Qed.

Lemma read_tightRows (mem : list Byte.byte) (q w : N) (k : nat) :
  read mem q (w * N.of_nat k) = tightRows mem q w w (N.of_nat k).
Proof.
  unfold tightRows. rewrite Nat2N.id. induction k as [|k IH].
  - rewrite N.mul_0_r. reflexivity.
  - rewrite Nat2N.inj_succ, N.mul_succ_r, read_split, IH, seq_S, map_app, concat_app.
    cbn [map concat]. rewrite app_nil_r. f_equal. f_equal. lia.
Qed.

Lemma tightRows_ext (memA memB : list Byte.byte) (qA qB strideA strideB w rows : N) :
  (forall h, h < rows -> read memB (qB + h * strideB) w = read memA (qA + h * strideA) w) ->
  tightRows memB qB strideB w rows = tightRows memA qA strideA w rows.
Proof.
  intros H. unfold tightRows. f_equal. apply map_ext_in. intros h Hh.
  apply in_seq in Hh. apply H. lia.
Qed.

(** C6, the part that holds: for an uncompressed format and a single
    layer, uploading rows at the tight stride (aligned path) and the same
    rows at a larger stride [P] (unaligned path) issue the same transfer,
    and the first [imageRowWidth * height] bytes it is handed (mip level 0)
    are identical. *)
Theorem upload_padded_rows_equivalent (memA memB : list Byte.byte)
    (range : TextureRangeDesc.t) (pA pB P : N) (s : St) (vt : VulkanTexture) :
  texture_ (tex s) = Some vt ->
  validateRange (desc_ (tex s)) range = Ok ->
  TextureRangeDesc.numLayers range <= 1 ->
  isCompressedTextureFormat (vkFormatToTextureFormat (getVkFormat (tex s))) = false ->
  imageRowWidthOf (tex s) < P ->
  (forall h, h < height (desc_ (tex s)) ->
     read memB (pB + h * P) (imageRowWidthOf (tex s)) =
     read memA (pA + h * imageRowWidthOf (tex s)) (imageRowWidthOf (tex s))) ->
  exists srcA srcB,
    run (upload memA range (Some pA) (imageRowWidthOf (tex s))) s =
      (Some Ok, logged s [layerTransfer (tex s) vt range 0 srcA]) /\
    run (upload memB range (Some pB) P) s =
      (Some Ok, logged s [layerTransfer (tex s) vt range 0 srcB]) /\
    handedBytes memA srcA (imageRowWidthOf (tex s) * height (desc_ (tex s))) =
    handedBytes memB srcB (imageRowWidthOf (tex s) * height (desc_ (tex s))).
Proof.
  intros Ht Hv Hn Hc HP Hrows.
  rewrite !upload_some_spec with (vt := vt) by assumption.
  replace (N.max (TextureRangeDesc.numLayers range) 1) with 1 by lia.
  change (N.to_nat 1) with 1%nat. cbn [seq map].
  assert (HA : isAlignedOf (tex s) (imageRowWidthOf (tex s)) = true).
  { unfold isAlignedOf. rewrite N.eqb_refl, !orb_true_r. reflexivity. }
  assert (HB : isAlignedOf (tex s) P = false).
  { unfold isAlignedOf. rewrite Hc.
    rewrite (proj2 (N.eqb_neq P 0)) by lia.
    rewrite (proj2 (N.eqb_neq (imageRowWidthOf (tex s)) P)) by lia. reflexivity. }
  rewrite HA, HB. do 2 eexists. split; [reflexivity|]. split; [reflexivity|].
  unfold layerSource, handedBytes. rewrite !N.mul_0_l, !N.add_0_r.
  rewrite read_all by apply tightRows_length.
  assert (E := read_tightRows memA pA (imageRowWidthOf (tex s)) (N.to_nat (height (desc_ (tex s))))).
  rewrite N2Nat.id in E. rewrite E.
  symmetry. apply tightRows_ext. exact Hrows.
Qed.

Lemma newEvents_app (s s' : St) (l : list Event) :
  dev_log (dev s') = dev_log (dev s) ++ l -> newEvents s s' = l.
Proof.
  intros H. unfold newEvents. rewrite H, skipn_app, skipn_all, Nat.sub_diag. reflexivity.
Qed.

(** ** Concrete instances *)

(** [upload_out_of_range_rejected] at [tex2D] and [wideRange] with a non-null pointer. *)
Lemma upload_out_of_range_rejected_witness :
  validateRange (desc_ (tex tex2D)) wideRange <> Ok /\
  run (upload [] wideRange (Some 0) 0) tex2D = (Some RangeOutOfBounds, tex2D).
Proof.
  split.
  - vm_compute. discriminate.
  - apply (upload_out_of_range_rejected [] wideRange (Some 0) 0 tex2D).
    vm_compute. discriminate.
Defined.

(** C2 (counterexample): a 2D descriptor with 4 samples and zero mip
    levels is accepted and its image is created: the zero level count is
    normalized to 1 before the sample check. *)
Lemma create_multisample_zero_mips_accepted :
  1 < numSamples msDesc0 /\ numMipLevels msDesc0 <> 1 /\
  fst (run (create okContext msDesc0) initSt) = Some Ok /\
  exists img rest,
    dev_log (dev (snd (run (create okContext msDesc0) initSt))) = EvCreateImage img :: rest.
Proof.
  split; [vm_compute; reflexivity|]. split; [vm_compute; discriminate|].
  split; [vm_compute; reflexivity|].
  vm_compute. do 2 eexists. reflexivity.
Qed.

(** [create_multisample_rejected] at 4-sample 2D descriptors: rejected with
    two levels, accepted with zero levels on a device that creates both
    objects. *)
Lemma create_multisample_rejected_witness :
  (fst (run (create okContext msDesc2) initSt) = Some ArgumentOutOfRange /\
   dev (snd (run (create okContext msDesc2) initSt)) = dev initSt) /\
  fst (run (create okContext msDesc0) initSt) = Some Ok.
Proof.
  split.
  - apply (create_multisample_rejected okContext msDesc2 initSt).
    + left. reflexivity.
    + vm_compute. reflexivity.
    + left. vm_compute. discriminate.
  - destruct (create_multisample_rejected okContext msDesc0 initSt) as [_ H];
      [left; reflexivity | vm_compute; reflexivity |].
    destruct H as (img & rest & _ & _ & Hc); [discriminate | reflexivity |].
    destruct (Hc eq_refl) as (v & _ & Hv). apply Hv. reflexivity.
Defined.

(** [create_normalizes_mips_and_usage] at [bareDesc]: the getters report one level and [Sampled]. *)
Lemma create_normalizes_mips_and_usage_witness :
  fst (run (create okContext bareDesc) initSt) = Some Ok /\
  getNumMipLevels (tex (snd (run (create okContext bareDesc) initSt))) = 1 /\
  getUsage (tex (snd (run (create okContext bareDesc) initSt))) = Sampled.
Proof.
  destruct (create_normalizes_mips_and_usage okContext bareDesc initSt) as [_ [_ H]].
  assert (Hok : fst (run (create okContext bareDesc) initSt) = Some Ok)
    by (vm_compute; reflexivity).
  destruct (H Hok) as [Hm Hu]. split; [exact Hok|]. rewrite Hm, Hu. split; reflexivity.
Defined.

(** [upload_layer_offsets] at [texArr]: layers 0 and 1 are read at offsets 0 and 64. *)
Lemma upload_layer_offsets_witness :
  exists vt, texture_ (tex texArr) = Some vt /\
  run (upload [] arrRange (Some 0) 0) texArr =
  (Some Ok, logged texArr
     (map (fun i => layerTransfer (tex texArr) vt arrRange (N.of_nat i)
                      (SrcCaller (N.of_nat i * 64)))
          (seq 0 2))).
Proof.
  destruct (texture_ (tex texArr)) as [vt|] eqn:Ht; [|vm_compute in Ht; discriminate].
  exists vt. split; [reflexivity|].
  rewrite (upload_layer_offsets [] arrRange 0 0 texArr vt Ht);
    [| vm_compute; reflexivity | vm_compute; discriminate | vm_compute; discriminate].
  vm_compute. reflexivity.
Defined.

(** C6 (counterexample): the unaligned path does not hand the transfer the
    same bytes as the aligned one.  First, two 1x1 R8 layers uploaded from
    tight rows and from the same rows followed by one byte of padding:
    layer 1 receives the byte 02 on the aligned path and the padding byte
    00 on the unaligned path, because the source pointer advances by the
    tight layer size on both paths.  Second, a single layer with two mip
    levels (5 bytes): the aligned path hands the caller's pointer, from
    which the whole chain is read, while the unaligned path hands a
    4-byte buffer holding level 0 only. *)
Lemma upload_padded_layers_differ :
  isCompressedTextureFormat (vkFormatToTextureFormat (getVkFormat (tex texR8))) = false /\
  imageRowWidthOf (tex texR8) = 1 /\
  read paddedMem 0 1 = read tightMem 0 1 /\ read paddedMem 2 1 = read tightMem 1 1 /\
  fst (run (upload tightMem r8Range (Some 0) 1) texR8) = Some Ok /\
  fst (run (upload paddedMem r8Range (Some 0) 2) texR8) = Some Ok /\
  map (fun e => handedBytes tightMem (eventSrc e) 1)
      (newEvents texR8 (snd (run (upload tightMem r8Range (Some 0) 1) texR8))) =
    [[Byte.x01]; [Byte.x02]] /\
  map (fun e => handedBytes paddedMem (eventSrc e) 1)
      (newEvents texR8 (snd (run (upload paddedMem r8Range (Some 0) 2) texR8))) =
    [[Byte.x01]; [Byte.x00]] /\
  validateRange (desc_ (tex texR8m)) r8mRange = Ok /\
  mipChainBytes (format (desc_ (tex texR8m))) r8mRange 2 = 5 /\
  map eventSrc (newEvents texR8m (snd (run (upload tightMem5 r8mRange (Some 0) 2) texR8m))) =
    [SrcCaller 0] /\
  map eventSrc (newEvents texR8m (snd (run (upload paddedMem7 r8mRange (Some 0) 3) texR8m))) =
    [SrcLinear [Byte.x01; Byte.x02; Byte.x03; Byte.x04]].
Proof. repeat apply conj; vm_compute; reflexivity. Qed.

(** [upload_padded_rows_equivalent] at [texR8s], tight stride 2 against padded stride 3. *)
Lemma upload_padded_rows_equivalent_witness :
  exists vt srcA srcB, texture_ (tex texR8s) = Some vt /\
    run (upload tightMem4 r8sRange (Some 0) 2) texR8s =
      (Some Ok, logged texR8s [layerTransfer (tex texR8s) vt r8sRange 0 srcA]) /\
    run (upload paddedMem6 r8sRange (Some 0) 3) texR8s =
      (Some Ok, logged texR8s [layerTransfer (tex texR8s) vt r8sRange 0 srcB]) /\
    handedBytes tightMem4 srcA 4 = handedBytes paddedMem6 srcB 4.
Proof.
  destruct (texture_ (tex texR8s)) as [vt|] eqn:Ht; [|vm_compute in Ht; discriminate].
  destruct (upload_padded_rows_equivalent tightMem4 paddedMem6 r8sRange 0 0 3 texR8s vt Ht)
    as (srcA & srcB & HA & HB & Hh).
  - vm_compute. reflexivity.
  - vm_compute. discriminate.
  - vm_compute. reflexivity.
  - vm_compute. reflexivity.
  - intros h Hh. change (height (desc_ (tex texR8s))) with 2 in Hh.
    assert (h = 0 \/ h = 1) as [-> | ->] by lia; vm_compute; reflexivity.
  - exists vt, srcA, srcB. split; [reflexivity|]. split; [exact HA|]. split; [exact HB|].
    exact Hh.
Defined.

(** [uploadCube_face_layer] at [texCube]: face [NegY] goes to layer 3. *)
Lemma uploadCube_face_layer_witness :
  exists vt, texture_ (tex texCube) = Some vt /\
  (exists s', run (uploadCube cubeRange NegY (Some 0) 0) texCube = (Some Ok, s') /\
     tex s' = tex texCube /\
     exists region mip mips fmt src,
       dev_log (dev s') = dev_log (dev texCube) ++
         [EvImageData2D (img_handle (vt_image vt)) region mip mips 3 fmt src]).
Proof.
  destruct (texture_ (tex texCube)) as [vt|] eqn:Ht; [|vm_compute in Ht; discriminate].
  exists vt. split; [reflexivity|].
  apply (uploadCube_face_layer cubeRange NegY (Some 0) 0 texCube vt Ht).
  vm_compute. reflexivity.
Defined.

(** [getVkImageViewForFramebuffer_caches] at [tex2D], level 1: a view is created, then reused. *)
Lemma getVkImageViewForFramebuffer_caches_witness :
  exists v s1,
    getVkImageViewForFramebuffer 1 tex2D = (inr (view_handle v), s1) /\
    view_baseMipLevel v = 1 /\ view_numMipLevels v = 1 /\
    getVkImageViewForFramebuffer 1 s1 = (inr (view_handle v), s1).
Proof.
  destruct (texture_ (tex tex2D)) as [vt|] eqn:Ht; [|vm_compute in Ht; discriminate].
  assert (Hvt := Ht). vm_compute in Hvt. injection Hvt as Hvt. subst vt.
  destruct (getVkImageViewForFramebuffer_caches tex2D _ 1 Ht) as [Hmiss _].
  - split; vm_compute; reflexivity.
  - vm_compute. reflexivity.
  - destruct Hmiss as (v & s1 & H1 & _ & _ & H2 & H3 & _ & _ & _ & _ & _ & _ & H4);
      [vm_compute; reflexivity|].
    exists v, s1. repeat split; assumption.
Defined.

(** [create_cube_single_sampled] at [cubeDesc4]: accepted, single-sampled image. *)
Lemma create_cube_single_sampled_witness :
  type cubeDesc4 = Cube /\ 1 < numSamples cubeDesc4 /\ numMipLevels cubeDesc4 = 1 /\
  exists img rest,
    dev_log (dev (snd (run (create okContext cubeDesc4) initSt))) = EvCreateImage img :: rest /\
    img_samples img = VK_SAMPLE_COUNT_1_BIT /\
    fst (run (create okContext cubeDesc4) initSt) = Some Ok.
Proof.
  split; [reflexivity|]. split; [vm_compute; reflexivity|]. split; [reflexivity|].
  destruct (create_cube_single_sampled okContext cubeDesc4 initSt) as [_ H].
  destruct H as (img & rest & Hl & Hs & _ & Hc); [reflexivity | vm_compute; reflexivity | reflexivity |].
  exists img, rest. split; [exact Hl|]. split; [exact Hs|].
  destruct (Hc eq_refl) as (v & _ & Hv). apply Hv. reflexivity.
Defined.

(** [uploadCube_passes_null_pointer] at [texCube]: the copy is handed a null source. *)
Lemma uploadCube_passes_null_pointer_witness :
  exists s', run (uploadCube cubeRange PosX None 0) texCube = (Some Ok, s') /\
    map eventSrc (newEvents texCube s') = [SrcNull].
Proof.
  destruct (texture_ (tex texCube)) as [vt|] eqn:Ht; [|vm_compute in Ht; discriminate].
  destruct (uploadCube_passes_null_pointer [] cubeRange PosX None 0 texCube vt Ht)
    as [(s' & Hr & region & mip & mips & layer & fmt & Hl) _].
  - vm_compute. reflexivity.
  - exists s'. split; [exact Hr|]. rewrite (newEvents_app _ _ _ Hl). reflexivity.
Defined.

(** ** Further properties of [Texture] *)

(** Case analysis of [create]: every [if] and the device's answer. *)
Ltac crunch_create :=
  repeat (unfold set_usage, set_numMipLevels, set_desc, set_texture in *;
          cbn -[imageUsageFlags calcNumMipLevels getVulkanSampleCountFlags app];
          match goal with
               | |- context [if ?b then _ else _] => destruct b eqn:?
               | |- context [match ?e with (_, _) => _ end] =>
                   lazymatch e with ctx_createImage _ _ => destruct e eqn:? end
               end);
  unfold set_usage, set_numMipLevels, set_desc, set_texture in *;
  cbn -[imageUsageFlags calcNumMipLevels getVulkanSampleCountFlags app].

Ltac create_cases :=
  lazymatch goal with desc : TextureDesc |- _ => destruct desc as [ty fm wd ht dp ly ns nm us sto] end;
  cbn [type format width height depth numLayers numSamples numMipLevels usage storage] in *;
  unfold run, create, bind, get_tex, put_tex, get_desc, put_desc, ret, early, fresh, emit;
  cbn -[imageUsageFlags calcNumMipLevels getVulkanSampleCountFlags app];
  lazymatch goal with t : TextureType |- _ => destruct t end; crunch_create.

(** [create] on a type other than [TwoD], [ThreeD] and [Cube] stores the
    descriptor and returns [Unimplemented] before any device call. *)
Theorem create_unsupported_type (ctx : VulkanContext) (desc : TextureDesc) (s : St) :
  type desc <> TwoD -> type desc <> ThreeD -> type desc <> Cube ->
  run (create ctx desc) s =
    (Some Unimplemented, {| tex := set_desc (tex s) desc; dev := dev s |}).
Proof.
  intros H1 H2 H3. destruct desc as [ty fm wd ht dp ly ns nm us sto]; cbn in *.
  destruct ty; try congruence; reflexivity.
Qed.

(** A [create] that does not succeed never sets [texture_] and leaves the
    framebuffer cache alone. Its device calls are one of: none; exactly one
    [createImage] whose outcome was not a success with an image; or a
    successful [createImage] followed by one [createImageView] that returned
    no view, in which case [create] returns [InvalidOperation]. *)
Theorem create_failure_frame (ctx : VulkanContext) (desc : TextureDesc) (s : St) :
  fst (run (create ctx desc) s) <> Some Ok ->
  texture_ (tex (snd (run (create ctx desc) s))) = texture_ (tex s) /\
  imageViewForFramebuffer_ (tex (snd (run (create ctx desc) s))) = imageViewForFramebuffer_ (tex s) /\
  (dev (snd (run (create ctx desc) s)) = dev s \/
   (exists img,
     dev_log (dev (snd (run (create ctx desc) s))) = dev_log (dev s) ++ [EvCreateImage img] /\
     ctx_createImage ctx img <> (Ok, true)) \/
   (exists img v,
     dev_log (dev (snd (run (create ctx desc) s))) =
       dev_log (dev s) ++ [EvCreateImage img; EvCreateImageView (img_handle img) v] /\
     ctx_createImage ctx img = (Ok, true) /\ ctx_createImageView ctx v = false /\
     fst (run (create ctx desc) s) = Some InvalidOperation)).
Proof.
  create_cases; intros H; try (exfalso; apply H; reflexivity).
  all: split; [reflexivity|]; split; [reflexivity|].
  all: first [ left; reflexivity
             | right; left; eexists; split; [reflexivity|]; intros E; rewrite E in *;
               match goal with Hc : (Ok, true) = (_, _) |- _ => injection Hc as <- <- end;
               cbv in *; congruence
             | right; right;
               match goal with |- context [EvCreateImage ?i] => exists i end;
               match goal with |- context [EvCreateImageView _ ?v] => exists v end;
               split; [rewrite <- app_assoc; reflexivity|];
               match goal with Hc : ctx_createImage _ _ = _ |- _ => rewrite Hc end;
               unfold IGL_VERIFY in *; destruct c, b; cbn in *; try congruence;
               bool_to_prop; repeat split; congruence ].
Qed.

(** A successful [create] makes exactly two device calls, the image and
    then its primary view, with two fresh handles; the device reported
    success with an image, [texture_] holds both objects and the framebuffer
    cache is untouched. *)
Theorem create_ok_device_calls (ctx : VulkanContext) (desc : TextureDesc) (s : St) :
  fst (run (create ctx desc) s) = Some Ok ->
  exists img v,
    dev_log (dev (snd (run (create ctx desc) s))) =
      dev_log (dev s) ++ [EvCreateImage img; EvCreateImageView (img_handle img) v] /\
    dev_next (dev (snd (run (create ctx desc) s))) = dev_next (dev s) + 2 /\
    img_handle img = dev_next (dev s) /\ view_handle v = dev_next (dev s) + 1 /\
    ctx_createImage ctx img = (Ok, true) /\
    texture_ (tex (snd (run (create ctx desc) s))) = Some {| vt_image := img; vt_view := v |} /\
    imageViewForFramebuffer_ (tex (snd (run (create ctx desc) s))) =
      imageViewForFramebuffer_ (tex s).
Proof.
  create_cases; intros H; try discriminate H.
  all: try (injection H as ->; bool_to_prop; cbn in *; discriminate).
  all: match goal with |- context [EvCreateImage ?i] => exists i end.
  all: match goal with |- context [EvCreateImageView _ ?v] => exists v end.
  all: split; [rewrite <- app_assoc; reflexivity|].
  all: repeat split; try reflexivity.
  all: try lia.
  all: match goal with Hc : ctx_createImage _ _ = _ |- _ => rewrite Hc end.
  all: unfold IGL_VERIFY in *; destruct c, b; cbn in *; congruence.
Qed.

(** The image and primary view of a successful [create]: the image type
    (3D only for [ThreeD]), the 32-bit extent, the format (the context's
    closest depth/stencil format for depth formats), the normalized mip
    count, the layer count (times 6 for a cube, which is also flagged
    cube-compatible), the memory flags of the storage; the view has the
    image's format and layers, all mip levels from 0 and the depth aspect
    exactly when the usage flags have the depth/stencil attachment bit. *)
Theorem create_ok_texture_shape ctx desc s :
  fst (run (create ctx desc) s) = Some Ok ->
  exists vt, texture_ (tex (snd (run (create ctx desc) s))) = Some vt /\
    img_type (vt_image vt) =
      (if TextureType_beq (type desc) ThreeD then VK_IMAGE_TYPE_3D else VK_IMAGE_TYPE_2D) /\
    img_extent (vt_image vt) = (u32 (width desc), u32 (height desc), u32 (depth desc)) /\
    img_format (vt_image vt) = vkFormatFor ctx (format desc) /\
    img_mipLevels (vt_image vt) =
      u32 (if numMipLevels desc =? 0 then 1 else numMipLevels desc) /\
    img_arrayLayers (vt_image vt) =
      (if TextureType_beq (type desc) Cube then u32 (u32 (numLayers desc) * 6)
       else u32 (numLayers desc)) /\
    img_createFlags (vt_image vt) =
      (if TextureType_beq (type desc) Cube then VK_IMAGE_CREATE_CUBE_COMPATIBLE_BIT else 0) /\
    img_memFlags (vt_image vt) = resourceStorageToVkMemoryPropertyFlags (storage desc) /\
    view_type (vt_view vt) =
      match type desc with
      | ThreeD => VK_IMAGE_VIEW_TYPE_3D | Cube => VK_IMAGE_VIEW_TYPE_CUBE
      | _ => VK_IMAGE_VIEW_TYPE_2D end /\
    view_format (vt_view vt) = img_format (vt_image vt) /\
    view_baseMipLevel (vt_view vt) = 0 /\
    view_numMipLevels (vt_view vt) = VK_REMAINING_MIP_LEVELS /\
    view_baseLayer (vt_view vt) = 0 /\
    view_numLayers (vt_view vt) = img_arrayLayers (vt_image vt) /\
    view_aspect (vt_view vt) =
      (if hasBit (img_usage (vt_image vt)) VK_IMAGE_USAGE_DEPTH_STENCIL_ATTACHMENT_BIT
       then VK_IMAGE_ASPECT_DEPTH_BIT else VK_IMAGE_ASPECT_COLOR_BIT).
Proof.
  create_cases; intros H; try discriminate H.
  all: try (injection H as ->; bool_to_prop; cbn in *; discriminate).
  all: eexists; split; [reflexivity|].
  all: unfold vkFormatFor, hasBit; cbn -[imageUsageFlags].
  all: repeat split; try reflexivity.
  all: repeat match goal with E : ?x = ?v |- context [?x] =>
         lazymatch type of x with bool => rewrite E end end.
  all: reflexivity.
Qed.

(** The bits of [imageUsageFlags]. *)
Lemma imageUsageFlags_bits (d : TextureDesc) :
  hasBit (imageUsageFlags d) VK_IMAGE_USAGE_TRANSFER_SRC_BIT = true /\
  hasBit (imageUsageFlags d) VK_IMAGE_USAGE_TRANSFER_DST_BIT =
    match storage d with Private => true | _ => false end /\
  hasBit (imageUsageFlags d) VK_IMAGE_USAGE_SAMPLED_BIT = hasBit (usage d) Sampled /\
  hasBit (imageUsageFlags d) VK_IMAGE_USAGE_STORAGE_BIT = hasBit (usage d) Storage /\
  hasBit (imageUsageFlags d) VK_IMAGE_USAGE_COLOR_ATTACHMENT_BIT =
    hasBit (usage d) Attachment && negb (isDepthOrStencilFormat (format d)) /\
  hasBit (imageUsageFlags d) VK_IMAGE_USAGE_DEPTH_STENCIL_ATTACHMENT_BIT =
    hasBit (usage d) Attachment && isDepthOrStencilFormat (format d).
Proof.
  unfold imageUsageFlags, hasBit; cbv zeta.
  destruct (N.land (usage d) Sampled =? 0), (N.land (usage d) Storage =? 0),
    (N.land (usage d) Attachment =? 0), (storage d), (isDepthOrStencilFormat (format d));
    repeat split; reflexivity.
Qed.

(** The usage flags of the image of a successful [create]: transfer source
    always, transfer destination exactly for private storage, sampled and
    storage following the (normalized) usage, and an attachment usage as a
    depth/stencil or a color attachment according to the format; the
    primary view has the depth aspect exactly for depth attachments. *)
Theorem create_ok_usage_bits ctx desc s :
  fst (run (create ctx desc) s) = Some Ok ->
  exists vt, texture_ (tex (snd (run (create ctx desc) s))) = Some vt /\
    let f := img_usage (vt_image vt) in
    let u := if usage desc =? 0 then Sampled else usage desc in
    hasBit f VK_IMAGE_USAGE_TRANSFER_SRC_BIT = true /\
    hasBit f VK_IMAGE_USAGE_TRANSFER_DST_BIT =
      match storage desc with Private => true | _ => false end /\
    hasBit f VK_IMAGE_USAGE_SAMPLED_BIT = hasBit u Sampled /\
    hasBit f VK_IMAGE_USAGE_STORAGE_BIT = hasBit u Storage /\
    hasBit f VK_IMAGE_USAGE_COLOR_ATTACHMENT_BIT =
      hasBit u Attachment && negb (isDepthOrStencilFormat (format desc)) /\
    hasBit f VK_IMAGE_USAGE_DEPTH_STENCIL_ATTACHMENT_BIT =
      hasBit u Attachment && isDepthOrStencilFormat (format desc) /\
    view_aspect (vt_view vt) =
      (if hasBit u Attachment && isDepthOrStencilFormat (format desc)
       then VK_IMAGE_ASPECT_DEPTH_BIT else VK_IMAGE_ASPECT_COLOR_BIT).
Proof.
  intros H; revert H.
  create_cases; intros H; try discriminate H.
  all: try (injection H as ->; bool_to_prop; cbn in *; discriminate).
  all: eexists; split; [reflexivity|]; cbv zeta; cbn [img_usage vt_image vt_view view_aspect].
  all: match goal with |- context [imageUsageFlags ?d] =>
         pose proof (imageUsageFlags_bits d) as Hb; cbn [usage format storage] in Hb end.
  all: destruct Hb as (-> & -> & -> & -> & -> & Hds); rewrite Hds.
  all: repeat match goal with E : ?x = ?v |- context [?x] =>
         lazymatch type of x with bool => rewrite E end end.
  all: repeat split; try reflexivity.
  all: unfold hasBit in *;
       repeat match goal with E : ?x = ?v |- context [?x] =>
         lazymatch type of x with bool => rewrite E end end.
  all: try reflexivity.
  all: match goal with E : (N.land _ VK_IMAGE_USAGE_DEPTH_STENCIL_ATTACHMENT_BIT =? 0) = _ |- _ =>
         rewrite E in Hds end; cbn [negb] in Hds.
  all: repeat match goal with E : ?x = ?v |- _ =>
         lazymatch type of x with bool =>
           lazymatch x with true => fail | false => fail | _ =>
           lazymatch type of Hds with context [x] => rewrite E in Hds end end end end.
  all: vm_compute in Hds; congruence.
Qed.

(** A supported type with more mip levels than [calcNumMipLevels] of its
    width and height is rejected with [ArgumentOutOfRange], without any
    device call, whatever the sample count. *)
Theorem create_mip_limit ctx desc s :
  type desc = TwoD \/ type desc = ThreeD \/ type desc = Cube ->
  calcNumMipLevels (width desc) (height desc) < numMipLevels desc ->
  run (create ctx desc) s =
    (Some ArgumentOutOfRange, {| tex := set_desc (tex s) desc; dev := dev s |}).
Proof.
  intros Hty Hlt.
  pose proof (calcNumMipLevels_pos (width desc) (height desc)).
  destruct desc as [ty fm wd ht dp ly ns nm us sto]; cbn in *.
  unfold run, create, bind, get_tex, put_tex, get_desc, put_desc, ret, early;
  cbn -[calcNumMipLevels].
  assert (E0 : (nm =? 0) = false) by (apply N.eqb_neq; lia).
  assert (E1 : (nm =? 1) = false) by (apply N.eqb_neq; lia).
  assert (E2 : (nm <=? calcNumMipLevels wd ht) = false) by (apply N.leb_gt; lia).
  unfold IGL_VERIFY. rewrite E0.
  destruct Hty as [-> | [-> | ->]]; cbn -[calcNumMipLevels];
    destruct (1 <? ns); cbn -[calcNumMipLevels]; rewrite ?E1, ?E2; reflexivity.
Qed.

(** Once [create] has asked the device for an image, its result is the
    device's. If [createImage] did not report success with an image, the
    result is the reported error, or [InvalidOperation] when no image came
    back. Otherwise exactly one [createImageView] follows, and the result is
    [Ok] when it returns a view and [InvalidOperation] when it does not. *)
Theorem create_result_from_device ctx desc s img rest :
  dev_log (dev (snd (run (create ctx desc) s))) = dev_log (dev s) ++ EvCreateImage img :: rest ->
  (ctx_createImage ctx img <> (Ok, true) ->
   rest = [] /\
   fst (run (create ctx desc) s) =
     Some (let '(r, _) := ctx_createImage ctx img in if isOk r then InvalidOperation else r)) /\
  (ctx_createImage ctx img = (Ok, true) ->
   exists v, rest = [EvCreateImageView (img_handle img) v] /\
   fst (run (create ctx desc) s) =
     Some (if ctx_createImageView ctx v then Ok else InvalidOperation)).
Proof.
  create_cases.
  all: intros Hlog;
       first [ exfalso; apply (f_equal (@length Event)) in Hlog;
               rewrite length_app in Hlog; cbn [length] in Hlog; lia
             | rewrite <- ?app_assoc in Hlog; apply app_inv_head in Hlog ];
       try discriminate Hlog.
  all: injection Hlog as <- <-.
  all: try match goal with
       | H1 : ctx_createImage ?a ?i = _, H2 : ctx_createImage ?a ?i = _ |- _ =>
           rewrite H1 in H2; injection H2 as <- <-
       end.
  all: split; intros Hc; unfold IGL_VERIFY in *;
       repeat match goal with c : Code |- _ => destruct c end; cbn in *; bool_to_prop;
       try congruence.
  all: try (split; reflexivity).
  all: eexists; split; [reflexivity|]; bool_to_prop;
       match goal with H : ctx_createImageView _ _ = _ |- _ => rewrite H end; reflexivity.
Qed.

(** Whatever its outcome, [create] leaves the descriptor's dimensions,
    type, layer count, sample count, format and storage in [desc_], where
    the accessors report them. *)
Theorem create_records_desc ctx desc s :
  let t := tex (snd (run (create ctx desc) s)) in
  getDimensions t = {| dim_width := width desc; dim_height := height desc;
                       dim_depth := depth desc |} /\
  getType t = type desc /\ getNumLayers t = numLayers desc /\
  getSamples t = numSamples desc /\
  format (desc_ t) = format desc /\ storage (desc_ t) = storage desc.
Proof.
  cbv zeta. unfold getDimensions, getType, getNumLayers, getSamples.
  create_cases.
  all: repeat split; reflexivity.
Qed.

(** The state after a successful [create]. *)
Lemma create_ok_state ctx desc s :
  fst (run (create ctx desc) s) = Some Ok ->
  let t := tex (snd (run (create ctx desc) s)) in
  exists img v, texture_ t = Some {| vt_image := img; vt_view := v |} /\
    img_handle img = dev_next (dev s) /\ view_handle v = dev_next (dev s) + 1 /\
    dev_next (dev (snd (run (create ctx desc) s))) = dev_next (dev s) + 2 /\
    img_format img = vkFormatFor ctx (format desc) /\
    imageViewForFramebuffer_ t = imageViewForFramebuffer_ (tex s) /\
    format (desc_ t) = format desc /\
    numMipLevels (desc_ t) = (if numMipLevels desc =? 0 then 1 else numMipLevels desc).
Proof.
  intros H; revert H; cbv zeta.
  create_cases; intros H; try discriminate H.
  all: try (injection H as ->; bool_to_prop; cbn in *; discriminate).
  all: do 2 eexists; split; [reflexivity|].
  all: unfold vkFormatFor; cbn.
  all: repeat match goal with E : ?x = ?v |- context [?x] =>
         lazymatch type of x with bool => rewrite E end end.
  all: repeat split; try reflexivity; lia.
Qed.

(** The state after a [create] that does not succeed. *)
Lemma create_not_ok_state ctx desc s :
  fst (run (create ctx desc) s) <> Some Ok ->
  texture_ (tex (snd (run (create ctx desc) s))) = texture_ (tex s) /\
  imageViewForFramebuffer_ (tex (snd (run (create ctx desc) s))) =
    imageViewForFramebuffer_ (tex s).
Proof.
  create_cases; intros H; try (exfalso; apply H; reflexivity).
  all: repeat split; reflexivity.
Qed.

(** After a successful [create], [generateMipmap] does nothing for one mip
    level and otherwise acquires an immediate command buffer, records the
    mip generation of the image just created and submits it. *)
Theorem create_then_generateMipmap ctx desc s :
  fst (run (create ctx desc) s) = Some Ok ->
  generateMipmap (tex (snd (run (create ctx desc) s))) =
    if 1 <? (if numMipLevels desc =? 0 then 1 else numMipLevels desc)
    then Some [CmdAcquire; CmdGenerateMipmap (dev_next (dev s)); CmdSubmit]
    else Some [].
Proof.
  intros H. destruct (create_ok_state ctx desc s H)
    as (img & v & Ht & Hh & _ & _ & _ & _ & _ & Hm).
  unfold generateMipmap. rewrite Hm, Ht. cbn [vt_image]. rewrite Hh. reflexivity.
Qed.

(** A [create] that fails on a texture without device objects leaves it
    without: [getVkImage] and [getVkImageView] give the null handle,
    [getVkFormat] gives [VK_FORMAT_UNDEFINED], and [generateMipmap] on more
    than one level dereferences the null [texture_]. *)
Theorem create_failed_keeps_null_texture ctx desc s :
  texture_ (tex s) = None ->
  fst (run (create ctx desc) s) <> Some Ok ->
  let t := tex (snd (run (create ctx desc) s)) in
  getVkImage t = VK_NULL_HANDLE /\ getVkImageView t = VK_NULL_HANDLE /\
  getVkFormat t = VK_FORMAT_UNDEFINED /\
  (1 < getNumMipLevels t -> generateMipmap t = None).
Proof.
  intros H0 H. destruct (create_not_ok_state ctx desc s H) as (Ht & _).
  cbv zeta. unfold getVkImage, getVkImageView, getVkFormat, generateMipmap, getNumMipLevels.
  rewrite Ht, H0. repeat split; try reflexivity.
  intros Hlt. apply N.ltb_lt in Hlt. rewrite Hlt. reflexivity.
Qed.

(** A framebuffer-view cache miss on a texture with device objects. *)
Lemma fb_miss_spec (s : St) (vt : VulkanTexture) (L : N) :
  texture_ (tex s) = Some vt ->
  cacheAt (tex s) L = None ->
  L + 1 < 2 ^ 32 ->
  exists s1,
    getVkImageViewForFramebuffer L s = (inr (dev_next (dev s)), s1) /\
    dev_next (dev s1) = dev_next (dev s) + 1 /\
    dev_log (dev s1) = dev_log (dev s) ++
      [EvCreateImageView (img_handle (vt_image vt))
         {| view_handle := dev_next (dev s); view_type := VK_IMAGE_VIEW_TYPE_2D;
            view_format := textureFormatToVkFormat (format (desc_ (tex s)));
            view_aspect := getImageAspectFlags (vt_image vt);
            view_baseMipLevel := L; view_numMipLevels := 1;
            view_baseLayer := 0; view_numLayers := 1 |}] /\
    desc_ (tex s1) = desc_ (tex s) /\ texture_ (tex s1) = texture_ (tex s) /\
    length (imageViewForFramebuffer_ (tex s1)) =
      Nat.max (length (imageViewForFramebuffer_ (tex s))) (N.to_nat L + 1).
Proof.
  intros Ht Hnone HL. unfold cacheAt in Hnone.
  unfold getVkImageViewForFramebuffer, bind, get_tex, put_tex, fresh, emit, ret.
  cbn -[Nat.ltb Nat.leb]. rewrite guarded_nth, Hnone.
  unfold set_cache. rewrite u32_small, N2Nat.inj_add by exact HL.
  change (N.to_nat 1) with 1%nat.
  destruct (Nat.leb_spec (length (imageViewForFramebuffer_ (tex s))) (N.to_nat L))
    as [Hle|Hle]; cbn -[Nat.ltb Nat.leb]; rewrite Ht.
  all: eexists; split; [reflexivity|];
       cbn [tex dev dev_next dev_log desc_ texture_ imageViewForFramebuffer_].
  all: repeat split; try reflexivity; try exact Ht.
  all: rewrite list_set_length, ?length_app, ?repeat_length; lia.
Qed.

(** A framebuffer-view cache miss on a texture without device objects. *)
Lemma fb_miss_no_texture (s : St) (L : N) :
  texture_ (tex s) = None ->
  cacheAt (tex s) L = None ->
  L + 1 < 2 ^ 32 ->
  fst (getVkImageViewForFramebuffer L s) = inl UB /\
  dev (snd (getVkImageViewForFramebuffer L s)) = dev s /\
  length (imageViewForFramebuffer_ (tex (snd (getVkImageViewForFramebuffer L s)))) =
    Nat.max (length (imageViewForFramebuffer_ (tex s))) (N.to_nat L + 1).
Proof.
  intros Ht Hnone HL. unfold cacheAt in Hnone.
  unfold getVkImageViewForFramebuffer, bind, get_tex, put_tex, ub, ret.
  cbn -[Nat.ltb Nat.leb]. rewrite guarded_nth, Hnone.
  unfold set_cache. rewrite u32_small, N2Nat.inj_add by exact HL.
  change (N.to_nat 1) with 1%nat.
  destruct (Nat.leb_spec (length (imageViewForFramebuffer_ (tex s))) (N.to_nat L))
    as [Hle|Hle]; cbn -[Nat.ltb Nat.leb]; rewrite Ht.
  all: repeat split; try reflexivity; cbn.
  all: rewrite ?length_app, ?repeat_length; lia.
Qed.

(** The first framebuffer view of a level after a successful [create] is
    a fresh view of the created image in the descriptor's format, while the
    image itself has the format [create] chose (for depth formats, the
    context's closest depth/stencil format). *)
Theorem fb_view_after_create ctx desc s L :
  fst (run (create ctx desc) s) = Some Ok ->
  cacheAt (tex s) L = None ->
  L + 1 < 2 ^ 32 ->
  let s1 := snd (run (create ctx desc) s) in
  exists v s2,
    getVkImageViewForFramebuffer L s1 = (inr (view_handle v), s2) /\
    dev_log (dev s2) = dev_log (dev s1) ++ [EvCreateImageView (getVkImage (tex s1)) v] /\
    view_handle v = dev_next (dev s) + 2 /\ view_baseMipLevel v = L /\
    view_format v = textureFormatToVkFormat (format desc) /\
    getVkFormat (tex s1) = vkFormatFor ctx (format desc).
Proof.
  intros Hok Hnone HL. cbv zeta.
  destruct (create_ok_state ctx desc s Hok)
    as (img & v & Ht & _ & _ & Hnext & Hfmt & Hcache & Hdf & _).
  assert (Hn : cacheAt (tex (snd (run (create ctx desc) s))) L = None)
    by (unfold cacheAt; rewrite Hcache; exact Hnone).
  destruct (fb_miss_spec _ _ L Ht Hn HL) as (s2 & Hrun & _ & Hlog & _).
  match type of Hlog with context [EvCreateImageView _ ?w] => exists w, s2 end.
  split; [exact Hrun|].
  unfold getVkImage, getVkFormat. rewrite Ht, Hlog. cbn [vt_image view_handle view_baseMipLevel view_format].
  rewrite Hnext, Hdf. repeat split; assumption || reflexivity.
Qed.

(** A framebuffer-view cache miss on a texture without device objects
    dereferences the null [texture_], before any device call. *)
Theorem fb_miss_without_texture_ub (s : St) (L : N) :
  texture_ (tex s) = None ->
  cacheAt (tex s) L = None ->
  L + 1 < 2 ^ 32 ->
  fst (getVkImageViewForFramebuffer L s) = inl UB /\
  dev (snd (getVkImageViewForFramebuffer L s)) = dev s.
Proof.
  intros Ht Hn HL. destruct (fb_miss_no_texture s L Ht Hn HL) as (H1 & H2 & _).
  split; assumption.
Qed.

(** A framebuffer-view cache miss for level [L] leaves the cache with
    [max(size, L + 1)] entries, whether or not a view could be created. *)
Theorem fb_miss_resizes_cache (s : St) (L : N) :
  cacheAt (tex s) L = None ->
  L + 1 < 2 ^ 32 ->
  length (imageViewForFramebuffer_ (tex (snd (getVkImageViewForFramebuffer L s)))) =
    Nat.max (length (imageViewForFramebuffer_ (tex s))) (N.to_nat L + 1).
Proof.
  intros Hn HL. destruct (texture_ (tex s)) as [vt|] eqn:Ht.
  - destruct (fb_miss_spec s vt L Ht Hn HL) as (s1 & Hrun & _ & _ & _ & _ & Hlen).
    rewrite Hrun. exact Hlen.
  - destruct (fb_miss_no_texture s L Ht Hn HL) as (_ & _ & Hlen). exact Hlen.
Qed.

(** The layer loop on a texture without device objects. *)
Lemma upload_layers_no_texture mem range isAligned bpr rw inc i k data lin s :
  texture_ (tex s) = None ->
  upload_layers mem range isAligned bpr rw inc i (S k) data lin s = (inl UB, s).
Proof.
  intros Ht. cbn [upload_layers]. unfold bind at 1, get_tex.
  destruct isAligned; rewrite Ht; reflexivity.
Qed.

(** A layer transfer goes into the texture's image. *)
Lemma layerTransfer_isTransferTo t vt range i src :
  isTransferTo (img_handle (vt_image vt)) (layerTransfer t vt range i src) = true.
Proof.
  unfold layerTransfer, isTransferTo. destruct (img_type (vt_image vt)); apply N.eqb_refl.
Qed.

(** [upload] with a pointer on a texture without device objects. *)
Lemma upload_some_no_texture mem range p bpr s :
  texture_ (tex s) = None ->
  validateRange (desc_ (tex s)) range = Ok ->
  run (upload mem range (Some p) bpr) s = (None, s).
Proof.
  intros Ht Hv. unfold run, upload, bind at 1, get_tex. rewrite Hv.
  change (negb (isOk Ok)) with false. cbv iota. unfold bind at 1.
  destruct (N.to_nat (N.max (TextureRangeDesc.numLayers range) 1)) eqn:En; [lia|].
  rewrite upload_layers_no_texture by exact Ht. reflexivity.
Qed.

(** [upload] never changes the texture object nor allocates a device
    handle; the only device calls it makes are staging transfers into the
    texture's own image. *)
Theorem upload_frame mem range data bpr s :
  let s' := snd (run (upload mem range data bpr) s) in
  tex s' = tex s /\ dev_next (dev s') = dev_next (dev s) /\
  exists evs, dev_log (dev s') = dev_log (dev s) ++ evs /\
    Forall (fun e => isTransferTo (getVkImage (tex s)) e = true) evs.
Proof.
  cbv zeta. destruct data as [p|].
  2:{ cbn. split; [reflexivity|]. split; [reflexivity|].
      exists []. split; [symmetry; apply app_nil_r | constructor]. }
  destruct (validateRange (desc_ (tex s)) range) eqn:Hv.
  2-8: unfold run, upload, bind, get_tex, early; rewrite Hv; cbn;
       split; [reflexivity|]; split; [reflexivity|];
       exists []; split; [symmetry; apply app_nil_r | constructor].
  destruct (texture_ (tex s)) as [vt|] eqn:Ht.
  - rewrite (upload_some_spec mem range p bpr s vt Ht Hv). cbn [snd tex dev dev_next dev_log].
    split; [reflexivity|]. split; [reflexivity|].
    eexists; split; [reflexivity|].
    apply Forall_forall. intros e He. apply in_map_iff in He as (j & <- & _).
    unfold getVkImage. rewrite Ht. apply layerTransfer_isTransferTo.
  - rewrite (upload_some_no_texture mem range p bpr s Ht Hv). cbn [snd].
    split; [reflexivity|]. split; [reflexivity|].
    exists []. split; [symmetry; apply app_nil_r | constructor].
Qed.

(** On a texture whose [create] did not succeed, an [upload] with a
    non-null pointer and an [uploadCube] (even with a null pointer) of a
    valid range dereference the null [texture_], before any transfer. *)
Theorem upload_uncreated_ub mem range p bpr face data s :
  texture_ (tex s) = None ->
  validateRange (desc_ (tex s)) range = Ok ->
  run (upload mem range (Some p) bpr) s = (None, s) /\
  run (uploadCube range face data bpr) s = (None, s).
Proof.
  intros Ht Hv. split.
  - apply upload_some_no_texture; assumption.
  - unfold run, uploadCube, bind, get_tex. rewrite Hv. cbn. rewrite Ht. reflexivity.
Qed.

(** A valid [upload] with a non-null pointer succeeds with one transfer per
    layer, at least one: into 2D layer [range.layer + i] (32-bit) for the
    [i]-th transfer, or a 3D transfer for a volumetric image. *)
Theorem upload_transfer_layers mem range p bpr s vt :
  texture_ (tex s) = Some vt ->
  validateRange (desc_ (tex s)) range = Ok ->
  let n := N.to_nat (N.max (TextureRangeDesc.numLayers range) 1) in
  let evs := newEvents s (snd (run (upload mem range (Some p) bpr) s)) in
  fst (run (upload mem range (Some p) bpr) s) = Some Ok /\
  length evs = n /\
  map eventLayer evs =
    map (fun j => match img_type (vt_image vt) with
                  | VK_IMAGE_TYPE_2D => Some (u32 (TextureRangeDesc.layer range + N.of_nat j))
                  | VK_IMAGE_TYPE_3D => None
                  end) (seq 0 n).
Proof.
  intros Ht Hv. cbv zeta.
  rewrite (upload_some_spec mem range p bpr s vt Ht Hv).
  erewrite newEvents_app; [|reflexivity]. cbn [fst].
  split; [reflexivity|]. split; [rewrite length_map, length_seq; reflexivity|].
  rewrite map_map. apply map_ext. intros j.
  unfold layerTransfer, eventLayer. destruct (img_type (vt_image vt)); reflexivity.
Qed.

(** The aligned layer loop does not read the stride. *)
Lemma upload_layers_aligned_stride mem range b1 b2 rw inc :
  forall k i data lin s,
  upload_layers mem range true b1 rw inc i k data lin s =
  upload_layers mem range true b2 rw inc i k data lin s.
Proof.
  induction k as [|k IH]; intros i data lin s; [reflexivity|].
  cbn [upload_layers]. unfold bind at 1 3, get_tex.
  destruct (texture_ (tex s)); [|reflexivity].
  unfold bind. destruct (emit _ s) as [[e|u] s1]; [reflexivity|]. apply IH.
Qed.

(** On the aligned path (compressed format, zero stride or a stride equal
    to the packed row width) the stride has no effect on [upload]. *)
Theorem upload_aligned_stride_irrelevant mem range p bpr s :
  isAlignedOf (tex s) bpr = true ->
  run (upload mem range (Some p) bpr) s = run (upload mem range (Some p) 0) s.
Proof.
  intros Ha.
  assert (H0 : isAlignedOf (tex s) 0 = true)
    by (unfold isAlignedOf; rewrite N.eqb_refl, orb_true_r; reflexivity).
  unfold run, upload. cbv [bind get_tex].
  destruct (negb (isOk (validateRange (desc_ (tex s)) range))); [reflexivity|].
  rewrite Ha, H0.
  rewrite (upload_layers_aligned_stride mem range bpr 0). reflexivity.
Qed.

(** On the unaligned path every transfer is handed the temporary buffer,
    which always holds the texture's full packed rows times its height,
    whatever the extent of the range. *)
Theorem upload_unaligned_full_rows mem range p bpr s vt :
  texture_ (tex s) = Some vt ->
  validateRange (desc_ (tex s)) range = Ok ->
  isAlignedOf (tex s) bpr = false ->
  Forall (fun e => exists buf, eventSrc e = SrcLinear buf /\
            length buf = N.to_nat (width (desc_ (tex s)) * bytesPerPixelOf (tex s) *
                                   height (desc_ (tex s))))
         (newEvents s (snd (run (upload mem range (Some p) bpr) s))).
Proof.
  intros Ht Hv Ha.
  rewrite (upload_some_spec mem range p bpr s vt Ht Hv).
  erewrite newEvents_app; [|reflexivity].
  apply Forall_forall. intros e He. apply in_map_iff in He as (j & <- & _).
  unfold layerSource. rewrite Ha.
  eexists; split.
  - unfold layerTransfer, eventSrc. destruct (img_type (vt_image vt)); reflexivity.
  - rewrite tightRows_length. reflexivity.
Qed.

(** Beyond validation, [uploadCube] ignores the range's layer and layer
    count: the face alone selects the destination layer. *)
Theorem uploadCube_ignores_range_layers range face data bpr s l1 n1 l2 n2 :
  validateRange (desc_ (tex s)) (withLayers range l1 n1) = Ok ->
  validateRange (desc_ (tex s)) (withLayers range l2 n2) = Ok ->
  run (uploadCube (withLayers range l1 n1) face data bpr) s =
  run (uploadCube (withLayers range l2 n2) face data bpr) s.
Proof.
  intros H1 H2. unfold run, uploadCube, bind, get_tex. rewrite H1, H2. cbn.
  destruct (texture_ (tex s)); reflexivity.
Qed.

(** *** Concrete instances of the further properties *)
(** [create_unsupported_type] at a concrete input. *)
Lemma create_unsupported_type_witness :
  run (create okContext arrayDesc) initSt =
    (Some Unimplemented, {| tex := set_desc (tex initSt) arrayDesc; dev := dev initSt |}).
Proof. apply (create_unsupported_type okContext arrayDesc initSt); discriminate. Defined.

(** [create_failure_frame] at a device that reports an error and at a
    device that returns no image view. *)
Lemma create_failure_frame_witness :
  fst (run (create failingContext (mkDesc TwoD RGBA_UNorm8 4 4 1 1 1 3 Sampled)) initSt)
    = Some RuntimeError /\
  texture_ (tex (snd (run (create failingContext (mkDesc TwoD RGBA_UNorm8 4 4 1 1 1 3 Sampled))
                       initSt))) = None /\
  fst (run (create nullViewContext (mkDesc TwoD RGBA_UNorm8 4 4 1 1 1 3 Sampled)) initSt)
    = Some InvalidOperation /\
  texture_ (tex (snd (run (create nullViewContext (mkDesc TwoD RGBA_UNorm8 4 4 1 1 1 3 Sampled))
                       initSt))) = None.
Proof.
  assert (H : fst (run (create failingContext (mkDesc TwoD RGBA_UNorm8 4 4 1 1 1 3 Sampled))
                   initSt) <> Some Ok) by (vm_compute; discriminate).
  destruct (create_failure_frame failingContext (mkDesc TwoD RGBA_UNorm8 4 4 1 1 1 3 Sampled)
              initSt H) as [Ht _].
  assert (H' : fst (run (create nullViewContext (mkDesc TwoD RGBA_UNorm8 4 4 1 1 1 3 Sampled))
                    initSt) <> Some Ok) by (vm_compute; discriminate).
  destruct (create_failure_frame nullViewContext (mkDesc TwoD RGBA_UNorm8 4 4 1 1 1 3 Sampled)
              initSt H') as [Ht' [_ Hd]].
  split; [vm_compute; reflexivity|]. split; [rewrite Ht; reflexivity|].
  split; [|rewrite Ht'; reflexivity].
  destruct Hd as [Hd | [(img & Hl & Hc) | (img & v & _ & _ & _ & Hr)]];
    [vm_compute in Hd; discriminate | vm_compute in Hl; discriminate | exact Hr].
Defined.

(** [create_ok_device_calls] at a concrete input. *)
Lemma create_ok_device_calls_witness :
  exists img v,
    dev_log (dev tex2D) = [EvCreateImage img; EvCreateImageView (img_handle img) v] /\
    img_handle img = 1 /\ view_handle v = 2.
Proof.
  assert (H : fst (run (create okContext (mkDesc TwoD RGBA_UNorm8 4 4 1 1 1 3 Sampled)) initSt)
              = Some Ok) by (vm_compute; reflexivity).
  destruct (create_ok_device_calls okContext (mkDesc TwoD RGBA_UNorm8 4 4 1 1 1 3 Sampled)
              initSt H) as (img & v & Hlog & _ & Hh & Hv & _).
  exists img, v. unfold tex2D. rewrite Hlog, Hh, Hv. repeat split; reflexivity.
Defined.

(** [create_ok_texture_shape] at a concrete input. *)
Lemma create_ok_texture_shape_witness :
  exists vt, texture_ (tex (snd (run (create depthContext depthDesc) initSt))) = Some vt /\
    img_format (vt_image vt) = S8_UInt_Z24_UNorm /\ view_format (vt_view vt) = S8_UInt_Z24_UNorm.
Proof.
  assert (H : fst (run (create depthContext depthDesc) initSt) = Some Ok)
    by (vm_compute; reflexivity).
  destruct (create_ok_texture_shape depthContext depthDesc initSt H)
    as (vt & Ht & _ & _ & Hf & _ & _ & _ & _ & _ & Hvf & _).
  exists vt. split; [exact Ht|]. rewrite Hvf, Hf. split; reflexivity.
Defined.

(** [create_ok_usage_bits] at a concrete input. *)
Lemma create_ok_usage_bits_witness :
  exists vt, texture_ (tex (snd (run (create depthContext depthDesc) initSt))) = Some vt /\
    hasBit (img_usage (vt_image vt)) VK_IMAGE_USAGE_DEPTH_STENCIL_ATTACHMENT_BIT = true /\
    hasBit (img_usage (vt_image vt)) VK_IMAGE_USAGE_COLOR_ATTACHMENT_BIT = false /\
    view_aspect (vt_view vt) = VK_IMAGE_ASPECT_DEPTH_BIT.
Proof.
  assert (H : fst (run (create depthContext depthDesc) initSt) = Some Ok)
    by (vm_compute; reflexivity).
  destruct (create_ok_usage_bits depthContext depthDesc initSt H)
    as (vt & Ht & _ & _ & _ & _ & Hc & Hd & Ha).
  exists vt. split; [exact Ht|]. rewrite Hc, Hd, Ha. repeat split; reflexivity.
Defined.

(** [create_mip_limit] at a concrete input. *)
Lemma create_mip_limit_witness :
  run (create okContext (mkDesc TwoD RGBA_UNorm8 4 4 1 1 1 5 Sampled)) initSt =
    (Some ArgumentOutOfRange,
     {| tex := set_desc (tex initSt) (mkDesc TwoD RGBA_UNorm8 4 4 1 1 1 5 Sampled);
        dev := dev initSt |}).
Proof.
  apply (create_mip_limit okContext (mkDesc TwoD RGBA_UNorm8 4 4 1 1 1 5 Sampled) initSt).
  - left. reflexivity.
  - vm_compute. reflexivity.
Defined.

(** [create_result_from_device] at a concrete input: a device that reports
    an error, and a device that returns no image view. *)
Lemma create_result_from_device_witness :
  fst (run (create failingContext (mkDesc TwoD RGBA_UNorm8 4 4 1 1 1 3 Sampled)) initSt) =
    Some RuntimeError /\
  fst (run (create nullViewContext (mkDesc TwoD RGBA_UNorm8 4 4 1 1 1 3 Sampled)) initSt) =
    Some InvalidOperation.
Proof.
  split.
  - lazymatch eval vm_compute in
        (dev_log (dev (snd (run (create failingContext
                                   (mkDesc TwoD RGBA_UNorm8 4 4 1 1 1 3 Sampled)) initSt))))
    with
    | EvCreateImage ?i :: ?r =>
        destruct (create_result_from_device failingContext
                    (mkDesc TwoD RGBA_UNorm8 4 4 1 1 1 3 Sampled) initSt i r) as [H1 _];
        [vm_compute; reflexivity|]
    end.
    destruct H1 as [_ ->]; [vm_compute; discriminate|]. reflexivity.
  - lazymatch eval vm_compute in
        (dev_log (dev (snd (run (create nullViewContext
                                   (mkDesc TwoD RGBA_UNorm8 4 4 1 1 1 3 Sampled)) initSt))))
    with
    | EvCreateImage ?i :: ?r =>
        destruct (create_result_from_device nullViewContext
                    (mkDesc TwoD RGBA_UNorm8 4 4 1 1 1 3 Sampled) initSt i r) as [_ H2];
        [vm_compute; reflexivity|]
    end.
    destruct (H2 eq_refl) as (v & _ & ->). reflexivity.
Defined.

(** [create_then_generateMipmap] at a concrete input. *)
Lemma create_then_generateMipmap_witness :
  generateMipmap (tex tex2D) = Some [CmdAcquire; CmdGenerateMipmap 1; CmdSubmit].
Proof.
  unfold tex2D.
  rewrite (create_then_generateMipmap okContext (mkDesc TwoD RGBA_UNorm8 4 4 1 1 1 3 Sampled)
             initSt) by (vm_compute; reflexivity).
  reflexivity.
Defined.

(** [create_failed_keeps_null_texture] at a concrete input. *)
Lemma create_failed_keeps_null_texture_witness :
  generateMipmap (tex (snd (run (create failingContext (mkDesc TwoD RGBA_UNorm8 4 4 1 1 1 3 Sampled))
                              initSt))) = None.
Proof.
  apply (create_failed_keeps_null_texture failingContext
           (mkDesc TwoD RGBA_UNorm8 4 4 1 1 1 3 Sampled) initSt).
  - reflexivity.
  - vm_compute. discriminate.
  - vm_compute. reflexivity.
Defined.

(** [fb_view_after_create] at a concrete input. *)
Lemma fb_view_after_create_witness :
  textureFormatToVkFormat (format depthDesc) <> vkFormatFor depthContext (format depthDesc) /\
  exists v s2,
    getVkImageViewForFramebuffer 0 (snd (run (create depthContext depthDesc) initSt)) =
      (inr (view_handle v), s2) /\
    view_format v = Z_UNorm24 /\
    getVkFormat (tex (snd (run (create depthContext depthDesc) initSt))) = S8_UInt_Z24_UNorm.
Proof.
  split; [vm_compute; discriminate|].
  destruct (fb_view_after_create depthContext depthDesc initSt 0)
    as (v & s2 & Hr & _ & _ & _ & Hf & Hg).
  - vm_compute. reflexivity.
  - reflexivity.
  - vm_compute. reflexivity.
  - exists v, s2. rewrite Hf, Hg. split; [exact Hr | split; reflexivity].
Defined.

(** [fb_miss_without_texture_ub] at a concrete input. *)
Lemma fb_miss_without_texture_ub_witness :
  fst (getVkImageViewForFramebuffer 0 initSt) = inl UB /\
  dev (snd (getVkImageViewForFramebuffer 0 initSt)) = dev initSt.
Proof.
  apply (fb_miss_without_texture_ub initSt 0).
  - reflexivity.
  - reflexivity.
  - vm_compute. reflexivity.
Defined.

(** [fb_miss_resizes_cache] at a concrete input. *)
Lemma fb_miss_resizes_cache_witness :
  length (imageViewForFramebuffer_ (tex (snd (getVkImageViewForFramebuffer 2 tex2D)))) = 3%nat.
Proof.
  rewrite (fb_miss_resizes_cache tex2D 2).
  - vm_compute. reflexivity.
  - vm_compute. reflexivity.
  - vm_compute. reflexivity.
Defined.

(** [upload_uncreated_ub] at a concrete input. *)
Lemma upload_uncreated_ub_witness :
  let s := snd (run (create failingContext (mkDesc TwoD RGBA_UNorm8 4 4 1 1 1 1 Sampled)) initSt) in
  run (upload [] (mkRange 0 0 0 4 4 1 0 1 0 1) (Some 0) 0) s = (None, s) /\
  run (uploadCube (mkRange 0 0 0 4 4 1 0 1 0 1) PosX None 0) s = (None, s).
Proof.
  apply upload_uncreated_ub; vm_compute; reflexivity.
Defined.

(** [upload_transfer_layers] at a concrete input. *)
Lemma upload_transfer_layers_witness :
  map eventLayer (newEvents texArr (snd (run (upload [] arrRange (Some 0) 0) texArr))) =
    [Some 0; Some 1].
Proof.
  destruct (texture_ (tex texArr)) as [vt|] eqn:Ht; [|discriminate Ht].
  destruct (upload_transfer_layers [] arrRange 0 0 texArr vt Ht)
    as (_ & _ & Hm); [vm_compute; reflexivity|].
  rewrite Hm. vm_compute in Ht. injection Ht as <-. reflexivity.
Defined.

(** [upload_aligned_stride_irrelevant] at a concrete input. *)
Lemma upload_aligned_stride_irrelevant_witness :
  run (upload [] (mkRange 0 0 0 4 4 1 0 1 0 1) (Some 0) 16) tex2D =
  run (upload [] (mkRange 0 0 0 4 4 1 0 1 0 1) (Some 0) 0) tex2D.
Proof. apply upload_aligned_stride_irrelevant. vm_compute. reflexivity. Defined.

(** [upload_unaligned_full_rows] at a concrete input. *)
Lemma upload_unaligned_full_rows_witness :
  Forall (fun e => exists buf, eventSrc e = SrcLinear buf /\ length buf = 64%nat)
    (newEvents tex2D (snd (run (upload [] (mkRange 0 0 0 2 2 1 0 1 0 1) (Some 0) 32) tex2D))).
Proof.
  destruct (texture_ (tex tex2D)) as [vt|] eqn:Ht; [|discriminate Ht].
  apply (upload_unaligned_full_rows [] (mkRange 0 0 0 2 2 1 0 1 0 1) 0 32 tex2D vt Ht).
  - vm_compute. reflexivity.
  - vm_compute. reflexivity.
Defined.

(** [uploadCube_ignores_range_layers] at a concrete input. *)
Lemma uploadCube_ignores_range_layers_witness :
  run (uploadCube (withLayers cubeRange 0 1) NegY (Some 0) 0) texCube =
  run (uploadCube (withLayers cubeRange 5 1) NegY (Some 0) 0) texCube.
Proof. apply uploadCube_ignores_range_layers; vm_compute; reflexivity. Defined.
